(** * Pet Care Log: a shallow embedding of the REST handlers, the
      authentication callbacks and the client-side list merge.

    The development follows the layout of the repository:
    - [JS]        the fragment of the JavaScript run time the handlers rely on
                  (strings and [trim], numbers and [Number(...)], JSON values,
                  truthiness, [new Date(...)]);
    - [Db]        the [logs] table and the SQL statements the handlers send;
    - [Http]      the server state, the handler monad with its [try]/[catch],
                  requests, responses, sessions and [lib/db.ts];
    - [LogsRoute] [app/api/logs/route.ts]: GET and POST;
    - [LogRoute]  [app/api/logs/[id]/route.ts]: PUT and DELETE (session-guarded);
    - [LogRouteOpen] the second [app/api/logs/[id]/route.ts] found in the
                  repository, without session guard and without [updated_at] stamp;
    - [Auth]      [auth.ts]: the credentials provider and the jwt/session callbacks;
    - [Page]      [app/page.tsx]: the state update performed by [handleSubmit]
                  and [handleDelete];
    - [Pool]      [lib/db.ts] in full, with the memoized pool, and its two
                  earlier forms;
    - [Outcome]   what a successful create, update and delete is;
    - [Spec]      a notion the specification uses and the code does not;
    - [Reference] a concrete run time and a small store for the worked requests.

    The facts come after the definitions: strings, the store, the handlers
    step by step, then the properties of the handlers for every run time, of
    the authentication callbacks and of the page, and the worked requests. *)

From Stdlib Require Import ZArith NArith List String Ascii Bool Lia.
From Stdlib Require Import Permutation Sorted DecimalString.
Import ListNotations.

Local Open Scope Z_scope.

#[local] Set Warnings "-register-all".

(* ================================================================== *)
(** ** The JavaScript fragment *)
(* ================================================================== *)

Module JS.

(** Strings.  A JavaScript string is a sequence of code units; the model keeps
    the code units below 256, one [ascii] each. *)

(** [WhiteSpace] and [LineTerminator] code units below 256:
    TAB, LF, VT, FF, CR, SP and NBSP. *)
Definition isWhiteSpace (c : ascii) : bool :=
  let n := N_of_ascii c in
  (((9 <=? n) && (n <=? 13)) || (n =? 32) || (n =? 160))%N.

Fixpoint trimStart (s : string) : string :=
  match s with
  | EmptyString => EmptyString
  | String c s' => if isWhiteSpace c then trimStart s' else s
  end.

Fixpoint trimEnd (s : string) : string :=
  match s with
  | EmptyString => EmptyString
  | String c s' =>
      match trimEnd s' with
      | EmptyString => if isWhiteSpace c then EmptyString else String c EmptyString
      | t => String c t
      end
  end.

(** [String.prototype.trim]. *)
Definition trim (s : string) : string := trimEnd (trimStart s).

(** Every code unit of the string is white space. *)
Fixpoint allWhiteSpace (s : string) : bool :=
  match s with
  | EmptyString => true
  | String c s' => isWhiteSpace c && allWhiteSpace s'
  end.

(** Numbers.  A finite Number is kept as sign, mantissa and binary exponent:
    [Finite neg m e] is [(-1)^neg * m * 2^e]. *)
Inductive number : Type :=
| NaN
| Infinity (neg : bool)
| Finite (neg : bool) (m : N) (e : Z).

Definition isNaN (x : number) : bool :=
  match x with NaN => true | _ => false end.

Definition isZero (x : number) : bool :=
  match x with Finite _ m _ => (m =? 0)%N | _ => false end.

(** [Number.isInteger]. *)
Definition isInteger (x : number) : bool :=
  match x with
  | Finite _ m e => (0 <=? e) || (Z.of_N m mod 2 ^ (- e) =? 0)
  | _ => false
  end.

(** The mathematical value of a finite Number, truncated towards zero
    ([ToIntegerOrInfinity] on finite arguments); 0 on NaN and infinities. *)
Definition truncate (x : number) : Z :=
  match x with
  | Finite neg m e =>
      let a := if 0 <=? e then Z.of_N m * 2 ^ e else Z.of_N m / 2 ^ (- e) in
      if neg then - a else a
  | _ => 0
  end.

(** Round the non-negative rational [p / q] to the nearest binary64 value,
    ties to even, with gradual underflow and overflow to infinity. *)
Definition roundBinary64 (neg : bool) (p q : Z) : number :=
  if p =? 0 then Finite neg 0 0
  else
    let e1 := Z.log2 p - Z.log2 q - 53 in
    let scaled_ge (e k : Z) : bool :=
      (* 2^k <= p / (q * 2^e) *)
      if 0 <=? e then 2 ^ k * (q * 2 ^ e) <=? p else 2 ^ k * q <=? p * 2 ^ (- e) in
    let e2 := if scaled_ge e1 53 then e1 + 1 else e1 in
    let e := Z.max e2 (-1074) in
    let num := if 0 <=? e then p else p * 2 ^ (- e) in
    let den := if 0 <=? e then q * 2 ^ e else q in
    let m0 := num / den in
    let r := num mod den in
    let m :=
      if 2 * r <? den then m0
      else if den <? 2 * r then m0 + 1
      else if Z.even m0 then m0 else m0 + 1 in
    if (972 <=? e) || ((e =? 971) && (2 ^ 53 <=? m)) then Infinity neg
    else Finite neg (Z.to_N m) e.

(** Numeric literals inside strings. *)
Definition digitOf (base : N) (c : ascii) : option N :=
  let n := N_of_ascii c in
  let d :=
    if ((48 <=? n) && (n <=? 57))%N then Some (n - 48)%N
    else if ((97 <=? n) && (n <=? 102))%N then Some (n - 87)%N
    else if ((65 <=? n) && (n <=? 70))%N then Some (n - 55)%N
    else None in
  match d with
  | Some v => if (v <? base)%N then Some v else None
  | None => None
  end.

(** Reads the longest prefix of digits in [base]; returns the accumulated
    value, the number of digits read and the rest of the string. *)
Fixpoint digits (base : N) (s : string) (acc : N) (k : nat) : N * nat * string :=
  match s with
  | String c s' =>
      match digitOf base c with
      | Some d => digits base s' (acc * base + d)%N (S k)
      | None => (acc, k, s)
      end
  | EmptyString => (acc, k, s)
  end.

Definition signOf (s : string) : bool * string :=
  match s with
  | String "-"%char s' => (true, s')
  | String "+"%char s' => (false, s')
  | _ => (false, s)
  end.

(** [ExponentPart] (optional): the decimal exponent, or [None] when the rest of
    the string is not an exponent part followed by nothing. *)
Definition exponentPart (s : string) : option Z :=
  match s with
  | EmptyString => Some 0
  | String c s' =>
      if (Ascii.eqb c "e" || Ascii.eqb c "E")%bool then
        let '(neg, s1) := signOf s' in
        match digits 10 s1 0 0 with
        | (_, O, _) => None
        | (v, _, EmptyString) => Some (if neg then - Z.of_N v else Z.of_N v)
        | _ => None
        end
      else None
  end.

(** [StrUnsignedDecimalLiteral]. *)
Definition unsignedDecimal (neg : bool) (s : string) : number :=
  if String.eqb s "Infinity" then Infinity neg
  else
    let '(i, ki, r1) := digits 10 s 0 0 in
    let '(mant, kf, r2) :=
      match r1 with
      | String "."%char r => digits 10 r i 0
      | _ => (i, O, r1)
      end in
    match (ki + kf)%nat, exponentPart r2 with
    | O, _ => NaN
    | _, None => NaN
    | _, Some ex =>
        let x := ex - Z.of_nat kf in
        if 0 <=? x then roundBinary64 neg (Z.of_N mant * 10 ^ x) 1
        else roundBinary64 neg (Z.of_N mant) (10 ^ (- x))
    end.

(** [NonDecimalIntegerLiteral] after its two-character prefix. *)
Definition nonDecimal (base : N) (s : string) : number :=
  match digits base s 0 0 with
  | (_, O, _) => NaN
  | (v, _, EmptyString) => roundBinary64 false (Z.of_N v) 1
  | _ => NaN
  end.

(** [Number(s)] for a string [s] ([StringToNumber]). *)
Definition Number (s : string) : number :=
  match trim s with
  | EmptyString => Finite false 0 0
  | String "0"%char (String c r) as t =>
      if (Ascii.eqb c "x" || Ascii.eqb c "X")%bool then nonDecimal 16 r
      else if (Ascii.eqb c "o" || Ascii.eqb c "O")%bool then nonDecimal 8 r
      else if (Ascii.eqb c "b" || Ascii.eqb c "B")%bool then nonDecimal 2 r
      else unsignedDecimal false t
  | t => let '(neg, r) := signOf t in unsignedDecimal neg r
  end.

(** Abrupt completions: a JavaScript operation either returns or throws. *)
Inductive completion (A : Type) : Type :=
| Return (a : A)
| Throw.
Arguments Return {A} a.
Arguments Throw {A}.

(** Values produced by [JSON.parse].  An object keeps its members in the
    order of the text; a later member of the same name wins. *)
Inductive JSON : Type :=
| JNull
| JBool (b : bool)
| JNumber (n : number)
| JString (s : string)
| JArray (l : list JSON)
| JObject (o : list (string * JSON)).

(** A JavaScript value as the handlers see it: a JSON value or [undefined]. *)
Definition value : Type := option JSON.
Definition undefined : value := None.

Fixpoint lookup (k : string) (o : list (string * JSON)) : value :=
  match o with
  | [] => None
  | (k', v) :: o' =>
      match lookup k o' with
      | Some w => Some w
      | None => if String.eqb k k' then Some v else None
      end
  end.

(** [v.k] for one of the keys [petName], [task], [time], [trim], [toString],
    none of which is defined on the prototypes of JSON values.  [v] is not null. *)
Definition get (v : JSON) (k : string) : value :=
  match v with
  | JObject o => lookup k o
  | _ => None
  end.

(** [!!v]. *)
Definition truthy (v : value) : bool :=
  match v with
  | None => false
  | Some JNull => false
  | Some (JBool b) => b
  | Some (JNumber n) => negb (isNaN n || isZero n)
  | Some (JString s) => negb (String.eqb s "")
  | Some (JArray _) => true
  | Some (JObject _) => true
  end.

(** [v.trim()]: only strings have a callable [trim]; on every other value the
    call throws a TypeError ([undefined] and members of a parsed object are
    not callable). *)
Definition callTrim (v : value) : completion string :=
  match v with
  | Some (JString s) => Return (trim s)
  | _ => Throw
  end.

(** Date objects: the time value is an integral number of milliseconds since
    the epoch, or NaN. *)
Inductive Date : Type :=
| InvalidDate
| Instant (t : Z).

(** [Number.isNaN(d.getTime())]. *)
Definition isInvalid (d : Date) : bool :=
  match d with InvalidDate => true | Instant _ => false end.

(** What the specification of the language leaves to the engine or what this
    development has no use to spell out: [Date.parse] on strings and the
    decimal rendering of Numbers. *)
Class Runtime : Type := {
  Date_parse : string -> Date;
  Number_toString : number -> string
}.

(** [TimeClip]. *)
Definition TimeClip (x : number) : Date :=
  match x with
  | Finite _ _ _ =>
      let t := truncate x in
      if (Z.abs t <? 8640000000000000)
         || ((Z.abs t =? 8640000000000000) && isInteger x)
      then Instant t else InvalidDate
  | _ => InvalidDate
  end.

Section WithRuntime.
Context {RT : Runtime}.

Local Open Scope string_scope.

(** [ToString(v)].  Arrays are joined with commas, null elements printing as
    the empty string.  A plain object prints as [[object Object]] unless it has
    a member named [toString], which is never callable: then no conversion
    method yields a primitive and a TypeError is thrown. *)
Fixpoint ToString (v : JSON) : completion string :=
  match v with
  | JNull => Return "null"
  | JBool b => Return (if b then "true" else "false")
  | JNumber n => Return (Number_toString n)
  | JString s => Return s
  | JArray l =>
      (fix join (l : list JSON) : completion string :=
         match l with
         | [] => Return ""
         | x :: r =>
             match (match x with JNull => Return "" | _ => ToString x end), r with
             | Throw, _ => Throw
             | Return a, [] => Return a
             | Return a, _ =>
                 match join r with
                 | Return b => Return (a ++ "," ++ b)
                 | Throw => Throw
                 end
             end
         end) l
  | JObject o =>
      match lookup "toString" o with
      | Some _ => Throw
      | None => Return "[object Object]"
      end
  end.

(** [new Date(v)]: strings are parsed; arrays and objects are first converted
    to a string; the other values are converted to a Number and clipped. *)
Definition newDate (v : value) : completion Date :=
  match v with
  | None => Return InvalidDate
  | Some JNull => Return (Instant 0)
  | Some (JBool b) => Return (Instant (if b then 1 else 0))
  | Some (JNumber n) => Return (TimeClip n)
  | Some (JString s) => Return (Date_parse s)
  | Some (JArray _ as a) | Some (JObject _ as a) =>
      match ToString a with
      | Return s => Return (Date_parse s)
      | Throw => Throw
      end
  end.

End WithRuntime.

(** Decimal numerals.  [decimalDigits fuel n acc] puts the digits of [n], most
    significant first, in front of [acc]; [fuel] bounds their number. *)
Fixpoint decimalDigits (fuel : nat) (n : N) (acc : string) : string :=
  match fuel with
  | O => acc
  | S fuel' =>
      let acc' := String (ascii_of_N (48 + n mod 10)) acc in
      if (n <? 10)%N then acc' else decimalDigits fuel' (n / 10) acc'
  end.

(** An integer inside a template literal, as in [`/api/logs/${id}`]: the
    decimal numeral of the integer, with a minus sign when it is negative.
    This is how a Number prints when it is an integer below 10^21 in
    magnitude. *)
Definition integerToString (z : Z) : string :=
  let n := Z.abs_N z in
  let numeral := decimalDigits (S (N.to_nat (N.log2 n))) n EmptyString in
  if z <? 0 then String "-"%char numeral else numeral.

(** Every code unit of the string is a decimal digit. *)
Fixpoint allDecimal (s : string) : bool :=
  match s with
  | EmptyString => true
  | String c s' =>
      match digitOf 10 c with
      | Some _ => allDecimal s'
      | None => false
      end
  end.

(** The string begins with white space. *)
Definition startsWithWhiteSpace (s : string) : bool :=
  match s with
  | EmptyString => false
  | String c _ => isWhiteSpace c
  end.

(** The string ends with white space. *)
Fixpoint endsWithWhiteSpace (s : string) : bool :=
  match s with
  | EmptyString => false
  | String c EmptyString => isWhiteSpace c
  | String _ s' => endsWithWhiteSpace s'
  end.

End JS.

(* ================================================================== *)
(** ** The store *)
(* ================================================================== *)

Module Db.

(** One row of [logs], as [logSelect] names its columns.  The event time and
    the two stamps are instants in milliseconds since the epoch. *)
Record LogRow : Type := mkLogRow {
  id : Z;
  petName : string;
  task : string;
  time : Z;
  createdAt : Z;
  updatedAt : option Z
}.

(** Modelled from the spec: the schema file is not part of the sources.  The
    table is keyed by an auto-incrementing integer id and [created_at] is set
    by the store at insertion.  Whether the column [updated_at] is declared
    [ON UPDATE CURRENT_TIMESTAMP] is not known and is kept as a field of the
    table: when it is, a statement that does not name [updated_at] stamps the
    rows on which it changes the value of some column, and only those.  The
    table keeps its rows in insertion order together with the next value of the
    id counter. *)
Record Table : Type := mkTable {
  rows : list LogRow;
  autoIncrement : Z;
  stampOnUpdate : bool
}.

Definition empty (stamp : bool) : Table := mkTable [] 1 stamp.

(** The ids in use are positive, pairwise distinct and below the counter. *)
Definition wf (t : Table) : Prop :=
  0 < autoIncrement t
  /\ NoDup (map id (rows t))
  /\ Forall (fun r => 0 < id r < autoIncrement t) (rows t).

(** [ORDER BY time DESC], as a stable insertion sort.  The statement leaves the
    order of rows with equal time open; the sort fixes one, and the facts
    about what the list returns state only what holds for every such order:
    which rows it holds and that they are in descending order. *)
Fixpoint insertDesc (r : LogRow) (l : list LogRow) : list LogRow :=
  match l with
  | [] => [r]
  | x :: l' => if time x <=? time r then r :: l else x :: insertDesc r l'
  end.

Definition orderByTimeDesc (l : list LogRow) : list LogRow :=
  fold_right insertDesc [] l.

(** A list of rows in which every row is at least as recent as all the rows
    after it. *)
Definition descending (l : list LogRow) : Prop :=
  StronglySorted (fun a b => time b <= time a) l.

(** No row of the table has id [k]. *)
Definition absent (k : Z) (t : Table) : Prop :=
  forall r, In r (rows t) -> id r <> k.

(** [SELECT ... FROM logs ORDER BY time DESC] *)
Definition selectAll (t : Table) : list LogRow := orderByTimeDesc (rows t).

(** [SELECT ... FROM logs WHERE id = ?] *)
Definition selectById (k : Z) (t : Table) : list LogRow :=
  filter (fun r => id r =? k) (rows t).

(** [INSERT INTO logs (pet_name, task, time, updated_at) VALUES (?, ?, ?, NOW())];
    returns [insertId]. *)
Definition insertLog (pet tsk : string) (at_ now : Z) (t : Table) : Z * Table :=
  let k := autoIncrement t in
  (k, mkTable (rows t ++ [mkLogRow k pet tsk at_ now (Some now)]) (k + 1)
        (stampOnUpdate t)).

(** [UPDATE logs SET pet_name = ?, task = ?, time = ?, updated_at = NOW() WHERE id = ?] *)
Definition updateLogStamped (pet tsk : string) (at_ now k : Z) (t : Table) : Table :=
  mkTable
    (map (fun r => if id r =? k
                   then mkLogRow (id r) pet tsk at_ (createdAt r) (Some now)
                   else r) (rows t))
    (autoIncrement t) (stampOnUpdate t).

(** The statement changes the value of some column of the row. *)
Definition changes (pet tsk : string) (at_ : Z) (r : LogRow) : bool :=
  negb (String.eqb (petName r) pet && String.eqb (task r) tsk && (time r =? at_)).

(** [UPDATE logs SET pet_name = ?, task = ?, time = ? WHERE id = ?] *)
Definition updateLog (pet tsk : string) (at_ now k : Z) (t : Table) : Table :=
  mkTable
    (map (fun r => if id r =? k
                   then mkLogRow (id r) pet tsk at_ (createdAt r)
                          (if stampOnUpdate t && changes pet tsk at_ r
                           then Some now else updatedAt r)
                   else r) (rows t))
    (autoIncrement t) (stampOnUpdate t).

(** [DELETE FROM logs WHERE id = ?]; returns [affectedRows]. *)
Definition deleteLog (k : Z) (t : Table) : Z * Table :=
  (Z.of_nat (List.length (selectById k t)),
   mkTable (filter (fun r => negb (id r =? k)) (rows t)) (autoIncrement t)
     (stampOnUpdate t)).

(** What one request may do to the table: nothing, or one of the four
    modifying statements. *)
Inductive statement (t : Table) : Table -> Prop :=
| NoStatement : statement t t
| Insert (pet tsk : string) (at_ now : Z) :
    statement t (snd (insertLog pet tsk at_ now t))
| UpdateStamped (pet tsk : string) (at_ now k : Z) :
    statement t (updateLogStamped pet tsk at_ now k t)
| Update (pet tsk : string) (at_ now k : Z) :
    statement t (updateLog pet tsk at_ now k t)
| Delete (k : Z) :
    statement t (snd (deleteLog k t)).

End Db.

(* ================================================================== *)
(** ** Request handling: state, exceptions, responses *)
(* ================================================================== *)

Module Http.
Import JS Db.

(** [process.env], restricted to the variables [getPool] requires. *)
Record Env : Type := mkEnv {
  MYSQL_HOST : option string;
  MYSQL_DATABASE : option string;
  MYSQL_USER : option string
}.

(** The server: its environment and the table behind the pool.  The database
    is taken to be reachable and to accept every statement. *)
Record Server : Type := mkServer {
  env : Env;
  logs : Table
}.

(** A handler body runs on the server state and returns or throws. *)
Definition M (A : Type) : Type := Server -> completion A * Server.

Definition ret {A} (a : A) : M A := fun s => (Return a, s).
Definition throw {A} : M A := fun s => (Throw, s).
Definition bind {A B} (m : M A) (f : A -> M B) : M B :=
  fun s => match m s with
           | (Return a, s') => f a s'
           | (Throw, s') => (Throw, s')
           end.
Definition lift {A} (c : completion A) : M A := fun s => (c, s).

(** [m] keeps the property [P] of the table, whether it returns or throws. *)
Definition preserves {A} (P : Table -> Prop) (m : M A) : Prop :=
  forall s, P (logs s) -> P (logs (snd (m s))).

(** Queries and statements on the pool.  They are taken to succeed: a query
    or a statement that the store rejects, which the [catch] of a handler would
    answer with 500, is outside the model. *)
Definition query {A} (q : Table -> A) : M A := fun s => (Return (q (logs s)), s).
Definition execute {A} (q : Table -> A * Table) : M A :=
  fun s => let '(a, t) := q (logs s) in (Return a, mkServer (env s) t).

Definition envSet (v : option string) : bool :=
  match v with
  | Some x => negb (String.eqb x "")
  | None => false
  end.

(** [lib/db.ts]: [getPool] throws unless host, database and user are set. *)
Definition getPool : M unit :=
  fun s =>
    if negb (envSet (MYSQL_HOST (env s)))
       || negb (envSet (MYSQL_DATABASE (env s)))
       || negb (envSet (MYSQL_USER (env s)))
    then (Throw, s) else (Return tt, s).

(** The environment under which [getPool] returns. *)
Definition configured (e : Env) : bool :=
  envSet (MYSQL_HOST e) && envSet (MYSQL_DATABASE e) && envSet (MYSQL_USER e).

Inductive Body : Type :=
| Message (m : string)
| Logs (l : list LogRow)
| Log (r : LogRow)
| Success.

Record Response : Type := mkResponse {
  status : Z;
  body : Body
}.

(** [NextResponse.json(b, { status })] and [NextResponse.json(b)]. *)
Definition json (b : Body) (st : Z) : Response := mkResponse st b.
Definition json200 (b : Body) : Response := mkResponse 200 b.

(** [try { ... } catch (error) { console.error(...); return r; }] *)
Definition tryCatch (m : M Response) (r : Response) : Server -> Response * Server :=
  fun s => match m s with
           | (Return a, s') => (a, s')
           | (Throw, s') => (r, s')
           end.

(** The request: its body as [request.json()] delivers it ([None] when the
    text is not JSON and the call rejects). *)
Record Request : Type := mkRequest {
  bodyJson : option JSON
}.

Definition requestJson (req : Request) : M JSON :=
  match bodyJson req with
  | Some v => ret v
  | None => throw
  end.

(** [const { petName, task, time } = body]: throws on [null]. *)
Definition destructure (b : JSON) : M (value * value * value) :=
  match b with
  | JNull => throw
  | _ => ret (get b "petName", get b "task", get b "time")
  end.

(** The session [auth()] resolves to. *)
Record SessionUser : Type := mkSessionUser {
  userId : option string;
  userRole : option string
}.

Record Session : Type := mkSession {
  user : option SessionUser
}.

(** [!session || session.user?.role !== "admin"] *)
Definition notAdmin (session : option Session) : bool :=
  match session with
  | None => true
  | Some se =>
      match user se with
      | None => true
      | Some u =>
          match userRole u with
          | Some r => negb (String.eqb r "admin")
          | None => true
          end
      end
  end.

End Http.

Declare Scope handler_scope.
Delimit Scope handler_scope with handler.
Notation "x <- m ;; k" := (Http.bind m (fun x => k))
  (at level 61, m at next level, right associativity) : handler_scope.
Notation "' p <- m ;; k" := (Http.bind m (fun p => k))
  (at level 61, p pattern, m at next level, right associativity) : handler_scope.

(* ================================================================== *)
(** ** [lib/db.ts] in full, and its two earlier forms *)
(* ================================================================== *)

Module Pool.
Import JS.
Local Open Scope string_scope.

(** [process.env], as the three forms of [lib/db.ts] read it. *)
Record ProcessEnv : Type := mkProcessEnv {
  MYSQL_HOST : option string;
  MYSQL_DATABASE : option string;
  MYSQL_USER : option string;
  MYSQL_PASSWORD : option string;
  MYSQL_PORT : option string;
  MYSQL_SSL : option string;
  MYSQL_SSL_REJECT_UNAUTHORIZED : option string;
  DATABASE_URL : option string
}.

Record SslOptions : Type := mkSslOptions {
  rejectUnauthorized : bool
}.

(** The options handed to [mysql.createPool]. *)
Record PoolOptions : Type := mkPoolOptions {
  uri : option string;
  host : option string;
  database : option string;
  user : option string;
  password : option string;
  port : option number;
  waitForConnections : bool;
  connectionLimit : Z;
  ssl : option SslOptions
}.

(** [globalThis.mysqlPool]: undefined, or the pool, known by the options it
    was created with. *)
Definition Global : Type := option PoolOptions.

(** [!v] for an environment variable. *)
Definition unset (v : option string) : bool :=
  match v with
  | Some x => String.eqb x ""
  | None => true
  end.

(** [v === s] *)
Definition equals (v : option string) (s : string) : bool :=
  match v with
  | Some x => String.eqb x s
  | None => false
  end.

(** [Number(process.env.MYSQL_PORT || 3306)] *)
Definition portOf (e : ProcessEnv) : number :=
  match MYSQL_PORT e with
  | Some p => if String.eqb p "" then Finite false 3306 0 else Number p
  | None => Finite false 3306 0
  end.

(** [if (!globalThis.mysqlPool) { globalThis.mysqlPool = mysql.createPool(options) }
    return globalThis.mysqlPool] *)
Definition memoized (options : PoolOptions) (g : Global)
  : completion PoolOptions * Global :=
  match g with
  | Some pool => (Return pool, g)
  | None => (Return options, Some options)
  end.

(** [getPool] of [lib/db.ts]. *)
Definition getPool (e : ProcessEnv) (g : Global) : completion PoolOptions * Global :=
  let host := MYSQL_HOST e in
  let database := MYSQL_DATABASE e in
  let user := MYSQL_USER e in
  let password := MYSQL_PASSWORD e in
  let port := portOf e in
  let sslEnabled := equals (MYSQL_SSL e) "true" || equals (MYSQL_SSL e) "1" in
  if unset host || unset database || unset user then (Throw, g)
  else
    memoized
      (mkPoolOptions None host database user password (Some port) true 10
         (if sslEnabled
          then Some (mkSslOptions
                       (negb (equals (MYSQL_SSL_REJECT_UNAUTHORIZED e) "false")))
          else None))
      g.

(** [getPool] of the earlier [lib/db.ts] without TLS. *)
Definition getPoolPlain (e : ProcessEnv) (g : Global)
  : completion PoolOptions * Global :=
  let host := MYSQL_HOST e in
  let database := MYSQL_DATABASE e in
  let user := MYSQL_USER e in
  let password := MYSQL_PASSWORD e in
  let port := portOf e in
  if unset host || unset database || unset user then (Throw, g)
  else
    memoized (mkPoolOptions None host database user password (Some port) true 10 None)
      g.

(** [getPool] of the earliest [lib/db.ts], driven by a connection URI.
    [mysql.createPool] parses the URI and throws on one it cannot parse, before
    the global is assigned; [parses] tells which URIs it accepts. *)
Definition getPoolUri (parses : string -> bool) (e : ProcessEnv) (g : Global)
  : completion PoolOptions * Global :=
  let databaseUrl := DATABASE_URL e in
  if unset databaseUrl then (Throw, g)
  else
    match g, databaseUrl with
    | Some pool, _ => (Return pool, g)
    | None, Some url =>
        if parses url
        then memoized (mkPoolOptions databaseUrl None None None None None true 10 None)
               g
        else (Throw, g)
    | None, None => (Throw, g)
    end.

(** The part of the environment the handlers' [getPool] looks at. *)
Definition httpEnv (e : ProcessEnv) : Http.Env :=
  Http.mkEnv (MYSQL_HOST e) (MYSQL_DATABASE e) (MYSQL_USER e).

End Pool.

(* ================================================================== *)
(** ** [app/api/logs/route.ts] *)
(* ================================================================== *)

Module LogsRoute.
Import JS Db Http.
Local Open Scope string_scope.
Local Open Scope handler_scope.

Section Handlers.
Context {RT : Runtime}.

Definition GET (session : option Session) : Server -> Response * Server :=
  tryCatch
    (match session with
     | None => ret (json (Message "Unauthorized") 401)
     | Some _ =>
         _ <- getPool ;;
         rows <- query selectAll ;;
         ret (json200 (Logs rows))
     end)
    (json (Message "Failed to fetch logs") 500).

(** [now] is the instant the store evaluates [NOW()] to. *)
Definition POST (session : option Session) (request : Request) (now : Z)
  : Server -> Response * Server :=
  tryCatch
    (if notAdmin session
     then ret (json (Message "Unauthorized - Admin access required") 403)
     else
       body <- requestJson request ;;
       '(petName, task, time) <- destructure body ;;
       if negb (truthy petName) || negb (truthy task) || negb (truthy time)
       then ret (json (Message "petName, task, and time are required") 400)
       else
         parsedDate <- lift (newDate time) ;;
         match parsedDate with
         | InvalidDate => ret (json (Message "Invalid time format") 400)
         | Instant t =>
             _ <- getPool ;;
             pet <- lift (callTrim petName) ;;
             tsk <- lift (callTrim task) ;;
             insertId <- execute (insertLog pet tsk t now) ;;
             rows <- query (selectById insertId) ;;
             match rows with
             | r :: _ => ret (json (Log r) 201)
             | [] => throw (* [NextResponse.json(undefined)] *)
             end
         end)
    (json (Message "Failed to create log") 500).

End Handlers.
End LogsRoute.

(* ================================================================== *)
(** ** [app/api/logs/[id]/route.ts], with the session guard *)
(* ================================================================== *)

Module LogRoute.
Import JS Db Http.
Local Open Scope string_scope.
Local Open Scope handler_scope.

Section Handlers.
Context {RT : Runtime}.

Definition PUT (session : option Session) (request : Request) (idParam : string)
    (now : Z) : Server -> Response * Server :=
  tryCatch
    (if notAdmin session
     then ret (json (Message "Unauthorized - Admin access required") 403)
     else
       body <- requestJson request ;;
       '(petName, task, time) <- destructure body ;;
       let id := Number idParam in
       if negb (isInteger id)
       then ret (json (Message "Invalid id") 400)
       else if negb (truthy petName) || negb (truthy task) || negb (truthy time)
       then ret (json (Message "petName, task, and time are required") 400)
       else
         parsedDate <- lift (newDate time) ;;
         match parsedDate with
         | InvalidDate => ret (json (Message "Invalid time format") 400)
         | Instant t =>
             _ <- getPool ;;
             pet <- lift (callTrim petName) ;;
             tsk <- lift (callTrim task) ;;
             _ <- execute (fun tb => (tt, updateLogStamped pet tsk t now (truncate id) tb)) ;;
             rows <- query (selectById (truncate id)) ;;
             match rows with
             | [] => ret (json (Message "Log not found") 404)
             | r :: _ => ret (json200 (Log r))
             end
         end)
    (json (Message "Failed to update log") 500).

Definition DELETE (session : option Session) (idParam : string)
  : Server -> Response * Server :=
  tryCatch
    (if notAdmin session
     then ret (json (Message "Unauthorized - Admin access required") 403)
     else
       let id := Number idParam in
       if negb (isInteger id)
       then ret (json (Message "Invalid id") 400)
       else
         _ <- getPool ;;
         affectedRows <- execute (deleteLog (truncate id)) ;;
         if (affectedRows =? 0)%Z
         then ret (json (Message "Log not found") 404)
         else ret (json200 Success))
    (json (Message "Failed to delete log") 500).

End Handlers.
End LogRoute.

(* ================================================================== *)
(** ** [app/api/logs/[id]/route.ts], the variant without session guard *)
(* ================================================================== *)

(** The repository holds a second copy of the by-id route.  It never calls
    [auth()] and its UPDATE statement does not name [updated_at]. *)
Module LogRouteOpen.
Import JS Db Http.
Local Open Scope string_scope.
Local Open Scope handler_scope.

Section Handlers.
Context {RT : Runtime}.

Definition PUT (request : Request) (idParam : string) (now : Z)
  : Server -> Response * Server :=
  tryCatch
    (body <- requestJson request ;;
     '(petName, task, time) <- destructure body ;;
     let id := Number idParam in
     if negb (isInteger id)
     then ret (json (Message "Invalid id") 400)
     else if negb (truthy petName) || negb (truthy task) || negb (truthy time)
     then ret (json (Message "petName, task, and time are required") 400)
     else
       parsedDate <- lift (newDate time) ;;
       match parsedDate with
       | InvalidDate => ret (json (Message "Invalid time format") 400)
       | Instant t =>
           _ <- getPool ;;
           pet <- lift (callTrim petName) ;;
           tsk <- lift (callTrim task) ;;
           _ <- execute (fun tb => (tt, updateLog pet tsk t now (truncate id) tb)) ;;
           rows <- query (selectById (truncate id)) ;;
           match rows with
           | [] => ret (json (Message "Log not found") 404)
           | r :: _ => ret (json200 (Log r))
           end
       end)
    (json (Message "Failed to update log") 500).

Definition DELETE (idParam : string) : Server -> Response * Server :=
  tryCatch
    (let id := Number idParam in
     if negb (isInteger id)
     then ret (json (Message "Invalid id") 400)
     else
       _ <- getPool ;;
       affectedRows <- execute (deleteLog (truncate id)) ;;
       if (affectedRows =? 0)%Z
       then ret (json (Message "Log not found") 404)
       else ret (json200 Success))
    (json (Message "Failed to delete log") 500).

End Handlers.
End LogRouteOpen.

(* ================================================================== *)
(** ** What a successful request is *)
(* ================================================================== *)

(** The conditions under which the handlers reach the store and the answers
    they then give, named once for the facts below. *)
Module Outcome.
Import JS Db Http.
Local Open Scope string_scope.

Section WithRuntime.
Context {RT : Runtime}.

(** The payload carries a non-empty string [p] as [petName], a non-empty
    string [k] as [task] and a truthy [time] that [new Date] turns into the
    instant [t]. *)
Definition validPayload (req : Request) (p k : string) (t : Z) : Prop :=
  exists b : JSON,
    bodyJson req = Some b
    /\ get b "petName" = Some (JString p) /\ p <> ""
    /\ get b "task" = Some (JString k) /\ k <> ""
    /\ truthy (get b "time") = true
    /\ newDate (get b "time") = Return (Instant t).

(** [out] is the result of a create that inserted a row. *)
Definition created (req : Request) (now : Z) (s : Server)
    (out : Response * Server) : Prop :=
  exists (p k : string) (t : Z) (r : LogRow) (rest : list LogRow),
    validPayload req p k t
    /\ selectById (autoIncrement (logs s))
         (snd (insertLog (trim p) (trim k) t now (logs s))) = r :: rest
    /\ out = (json (Log r) 201,
              mkServer (env s) (snd (insertLog (trim p) (trim k) t now (logs s)))).

(** [out] is the result of an update, sent as the statement [upd], that found
    a row with the id. *)
Definition updated (upd : string -> string -> Z -> Z -> Z -> Table -> Table)
    (req : Request) (idParam : string) (now : Z) (s : Server)
    (out : Response * Server) : Prop :=
  exists (p k : string) (t : Z) (r : LogRow) (rest : list LogRow),
    validPayload req p k t
    /\ selectById (truncate (Number idParam))
         (upd (trim p) (trim k) t now (truncate (Number idParam)) (logs s))
       = r :: rest
    /\ out = (json200 (Log r),
              mkServer (env s)
                (upd (trim p) (trim k) t now (truncate (Number idParam)) (logs s))).

(** [out] is the result of a delete that removed a row. *)
Definition deleted (idParam : string) (s : Server) (out : Response * Server) : Prop :=
  ~ absent (truncate (Number idParam)) (logs s)
  /\ out = (json200 Success,
            mkServer (env s) (snd (deleteLog (truncate (Number idParam)) (logs s)))).

End WithRuntime.
End Outcome.

(* ================================================================== *)
(** ** [auth.ts] *)
(* ================================================================== *)

Module Auth.
Import Http.
Local Open Scope string_scope.



Record User : Type := mkUser {
  id : option string;
  userEmail : option string;
  name : option string;
  role : option string
}.

Definition strictEq (v : option string) (s : string) : bool :=
  match v with
  | Some x => String.eqb x s
  | None => false
  end.




Record Account : Type := mkAccount {
  provider : string
}.

Record Token : Type := mkToken {
  tokenRole : option string;
  tokenId : option string
}.

(** [user.role || ...]: undefined and the empty string are falsy. *)
Definition roleOr (r : option string) (dflt : string) : string :=
  match r with
  | Some x => if String.eqb x "" then dflt else x
  | None => dflt
  end.

(** [account?.provider === "google"] *)
Definition isGoogle (account : option Account) : bool :=
  match account with
  | Some a => String.eqb (provider a) "google"
  | None => false
  end.

(** The [jwt] callback; [user] and [account] are present on sign-in only. *)
Definition jwt (token : Token) (user : option User) (account : option Account) : Token :=
  match user with
  | Some u =>
      mkToken (Some (roleOr (role u) (if isGoogle account then "user" else "admin")))
              (id u)
  | None => token
  end.

(** The [session] callback. *)
Definition session (se : Session) (token : Token) : Session :=
  match Http.user se with
  | Some _ => mkSession (Some (mkSessionUser (tokenId token) (tokenRole token)))
  | None => se
  end.

End Auth.

(* ================================================================== *)
(** ** [app/page.tsx] *)
(* ================================================================== *)

Module Page.

Record Log : Type := mkLog {
  id : Z;
  petName : string;
  task : string;
  time : string;
  createdAt : string;
  updatedAt : string
}.

(** [const isEditing = editingId !== null] *)
Definition isEditing (editingId : option Z) : bool :=
  match editingId with
  | Some _ => true
  | None => false
  end.

(** The state update of [handleSubmit] after a successful response:
    [prev.map(item => item.id === data.id ? data : item)] when editing,
    [[data, ...prev]] otherwise. *)
Definition mergeSubmitted (editingId : option Z) (data : Log) (prev : list Log)
  : list Log :=
  if isEditing editingId
  then map (fun item => if id item =? id data then data else item) prev
  else data :: prev.

(** The id inside [`/api/logs/${id}`], which the route receives as its path
    parameter. *)
Definition idParam (k : Z) : string := JS.integerToString k.

(** The state update of [handleDelete]: [prev.filter(log => log.id !== id)]. *)
Definition removeDeleted (k : Z) (prev : list Log) : list Log :=
  filter (fun log => negb (id log =? k)) prev.

End Page.

(* ================================================================== *)
(** ** The words of the specification *)
(* ================================================================== *)

Module Spec.
Local Open Scope string_scope.

(** The specification describes the id check of the by-id routes as "a
    well-formed positive integer": a non-empty run of decimal digits that
    denotes a number above zero. *)
Definition wellFormedPositiveInteger (s : string) : bool :=
  match JS.digits 10 s 0 0 with
  | (v, S _, "") => (0 <? v)%N
  | _ => false
  end.

End Spec.

(* ================================================================== *)
(** ** A reference run time for the worked examples *)
(* ================================================================== *)

(** The examples below run the handlers on concrete requests.  They use an
    engine whose [Date.parse] reads the date-time format of the language
    standard in UTC, [YYYY-MM-DDTHH:mm:ssZ] with optional milliseconds, and
    nothing else, and whose Number rendering covers NaN, the infinities and
    the integers. *)
Module Reference.
Import JS.
Local Open Scope string_scope.

(** Reads exactly [n] decimal digits. *)
Fixpoint readDigits (n : nat) (s : string) (acc : Z) : option (Z * string) :=
  match n with
  | O => Some (acc, s)
  | S n' =>
      match s with
      | String c s' =>
          match digitOf 10 c with
          | Some d => readDigits n' s' (acc * 10 + Z.of_N d)
          | None => None
          end
      | EmptyString => None
      end
  end.

Definition expect (c : ascii) (s : string) : option string :=
  match s with
  | String c' s' => if Ascii.eqb c c' then Some s' else None
  | EmptyString => None
  end.

Definition isLeap (y : Z) : bool :=
  ((y mod 4 =? 0) && negb (y mod 100 =? 0) || (y mod 400 =? 0))%Z.

Definition daysInMonth (y m : Z) : Z :=
  if (m =? 2)%Z then (if isLeap y then 29 else 28)
  else if ((m =? 4) || (m =? 6) || (m =? 9) || (m =? 11))%Z then 30
  else 31.

(** Days between 1970-01-01 and the given civil date. *)
Definition daysFromCivil (y m d : Z) : Z :=
  let y' := if (m <=? 2)%Z then y - 1 else y in
  let era := y' / 400 in
  let yoe := y' - era * 400 in
  let mp := (m + 9) mod 12 in
  let doy := (153 * mp + 2) / 5 + d - 1 in
  let doe := yoe * 365 + yoe / 4 - yoe / 100 + doy in
  era * 146097 + doe - 719468.

Definition parseIso (s : string) : option Z :=
  match readDigits 4 s 0 with
  | Some (y, s) =>
  match expect "-" s with Some s =>
  match readDigits 2 s 0 with Some (mo, s) =>
  match expect "-" s with Some s =>
  match readDigits 2 s 0 with Some (d, s) =>
  match expect "T" s with Some s =>
  match readDigits 2 s 0 with Some (h, s) =>
  match expect ":" s with Some s =>
  match readDigits 2 s 0 with Some (mi, s) =>
  match expect ":" s with Some s =>
  match readDigits 2 s 0 with Some (sec, s) =>
    let fraction :=
      match expect "." s with
      | Some s' => readDigits 3 s' 0
      | None => Some (0, s)
      end in
    match fraction with
    | Some (ms, "Z") =>
        if ((1 <=? mo) && (mo <=? 12) && (1 <=? d) && (d <=? daysInMonth y mo)
            && (h <=? 23) && (mi <=? 59) && (sec <=? 59))%Z
        then Some ((((daysFromCivil y mo d * 24 + h) * 60 + mi) * 60 + sec) * 1000 + ms)
        else None
    | _ => None
    end
  | None => None end | None => None end | None => None end | None => None end
  | None => None end | None => None end | None => None end | None => None end
  | None => None end | None => None end
  | None => None
  end.

Definition dateParse (s : string) : Date :=
  match parseIso s with
  | Some t => Instant t
  | None => InvalidDate
  end.

Definition numberToString (x : number) : string :=
  match x with
  | NaN => "NaN"
  | Infinity neg => if neg then "-Infinity" else "Infinity"
  | Finite _ _ _ => NilZero.string_of_int (Z.to_int (truncate x))
  end.

#[export] Instance engine : Runtime := {|
  Date_parse := dateParse;
  Number_toString := numberToString
|}.

(** Sessions, a configured environment and a small store. *)
Definition adminSession : Http.Session :=
  Http.mkSession (Some (Http.mkSessionUser (Some "admin") (Some "admin"))).
Definition viewerSession : Http.Session :=
  Http.mkSession (Some (Http.mkSessionUser (Some "1084") (Some "user"))).

Definition env0 : Http.Env :=
  Http.mkEnv (Some "localhost") (Some "pet_care_log") (Some "root").

Definition milo : Db.LogRow :=
  Db.mkLogRow 1 "Milo" "Fed" 1704096000000 1704100000000 (Some 1704100000000).
Definition luna : Db.LogRow :=
  Db.mkLogRow 2 "Luna" "Walked" 1704182400000 1704190000000 (Some 1704190000000).

(** The store of the examples, under either declaration of [updated_at]. *)
Definition store (stamp : bool) : Http.Server :=
  Http.mkServer env0 (Db.mkTable [milo; luna] 3 stamp).

Definition server0 : Http.Server := store false.

Definition payload (pet tsk at_ : string) : Http.Request :=
  Http.mkRequest
    (Some (JObject [("petName", JString pet); ("task", JString tsk); ("time", JString at_)])).

(** The two answers the examples meet most. *)
Definition forbidden : Http.Response :=
  Http.json (Http.Message "Unauthorized - Admin access required") 403.
Definition notFound : Http.Response :=
  Http.json (Http.Message "Log not found") 404.

(** 2024-01-03 08:00 UTC, the time at which the statements of the examples
    run. *)
Definition now0 : Z := 1704268800000.

(** An entry of the page's list. *)
Definition entry (k : Z) (pet : string) : Page.Log :=
  Page.mkLog k pet "Fed" "2024-01-01T08:00:00.000Z" "2024-01-01T09:00:00.000Z"
    "2024-01-01T09:00:00.000Z".

End Reference.

(* ================================================================== *)
(** ** Facts about strings *)
(* ================================================================== *)

Module JSFacts.
Import JS.
Local Open Scope string_scope.

Lemma trimStart_allWhiteSpace (s : string) :
  allWhiteSpace s = true -> trimStart s = "".
Proof.
  induction s as [| c s IH]; simpl; intros H.
  - reflexivity.
  - apply andb_true_iff in H as [Hc Hs]. rewrite Hc. auto.
Qed.

Lemma trim_allWhiteSpace (s : string) :
  allWhiteSpace s = true -> trim s = "".
Proof.
  intros H. unfold trim. rewrite trimStart_allWhiteSpace by assumption.
  reflexivity.
Qed.

(** What [trimStart] returns does not begin with white space. *)
Lemma trimStart_head (s : string) (c : ascii) (r : string) :
  trimStart s = String c r -> isWhiteSpace c = false.
Proof.
  induction s as [| a s IH]; simpl; intros H.
  - discriminate.
  - destruct (isWhiteSpace a) eqn:Ha.
    + auto.
    + injection H as -> _. exact Ha.
Qed.

(** [trimEnd] keeps the first code unit of what it does not erase. *)
Lemma trimEnd_head (s : string) (c : ascii) (r : string) :
  trimEnd s = String c r -> exists r', s = String c r'.
Proof.
  destruct s as [| a s]; simpl; intros H.
  - discriminate.
  - destruct (trimEnd s); [destruct (isWhiteSpace a)|];
      try discriminate; injection H as -> _; eauto.
Qed.

Lemma trim_head (s : string) (c : ascii) (r : string) :
  trim s = String c r -> isWhiteSpace c = false.
Proof.
  unfold trim. intros H.
  destruct (trimEnd_head _ _ _ H) as [r' Hr'].
  exact (trimStart_head _ _ _ Hr').
Qed.

(** A truthy string is a non-empty string. *)
Lemma truthy_string (s : string) :
  s <> "" -> truthy (Some (JString s)) = true.
Proof.
  intros H. simpl. destruct (String.eqb_spec s ""); [contradiction | reflexivity].
Qed.

End JSFacts.

(* ================================================================== *)
(** ** Facts about the store *)
(* ================================================================== *)

Module DbFacts.
Import Db.

Lemma insertDesc_perm (r : LogRow) (l : list LogRow) :
  Permutation (insertDesc r l) (r :: l).
Proof.
  induction l as [| x l IH]; simpl.
  - apply Permutation_refl.
  - destruct (time x <=? time r).
    + apply Permutation_refl.
    + eapply perm_trans; [apply perm_skip, IH | apply perm_swap].
Qed.

Lemma orderByTimeDesc_perm (l : list LogRow) :
  Permutation (orderByTimeDesc l) l.
Proof.
  induction l as [| x l IH]; simpl.
  - apply perm_nil.
  - eapply perm_trans; [apply insertDesc_perm | apply perm_skip, IH].
Qed.

Lemma insertDesc_descending (r : LogRow) (l : list LogRow) :
  descending l -> descending (insertDesc r l).
Proof.
  unfold descending. induction l as [| x l IH]; simpl; intros H.
  - repeat constructor.
  - inversion H as [| ? ? Hl Hx]; subst.
    destruct (time x <=? time r) eqn:E.
    + apply Z.leb_le in E. constructor; [exact H |].
      constructor; [exact E |].
      eapply Forall_impl; [| exact Hx]. simpl. intros a Ha. lia.
    + apply Z.leb_gt in E. constructor; [auto |].
      eapply Permutation_Forall; [apply Permutation_sym, insertDesc_perm |].
      constructor; [lia | exact Hx].
Qed.

Lemma orderByTimeDesc_descending (l : list LogRow) :
  descending (orderByTimeDesc l).
Proof.
  induction l as [| x l IH]; simpl.
  - constructor.
  - apply insertDesc_descending, IH.
Qed.

Lemma selectById_absent (k : Z) (t : Table) :
  absent k t -> selectById k t = [].
Proof.
  unfold absent, selectById. induction (rows t) as [| x l IH]; simpl; intros H.
  - reflexivity.
  - destruct (Z.eqb_spec (id x) k) as [E | _].
    + exfalso. exact (H x (or_introl eq_refl) E).
    + apply IH. intros r Hr. apply H. now right.
Qed.

Lemma selectById_nil_absent (k : Z) (t : Table) :
  selectById k t = [] -> absent k t.
Proof.
  unfold absent, selectById. intros H r Hr E.
  assert (Hin : In r (filter (fun r => id r =? k) (rows t))).
  { apply filter_In. split; [exact Hr | now apply Z.eqb_eq]. }
  rewrite H in Hin. exact Hin.
Qed.

Lemma map_absent (f : LogRow -> LogRow) (k : Z) (l : list LogRow) :
  (forall r, In r l -> id r <> k) ->
  map (fun r => if id r =? k then f r else r) l = l.
Proof.
  induction l as [| x l IH]; simpl; intros H.
  - reflexivity.
  - destruct (Z.eqb_spec (id x) k) as [E | _].
    + exfalso. exact (H x (or_introl eq_refl) E).
    + f_equal. apply IH. intros r Hr. apply H. now right.
Qed.

Lemma updateLogStamped_absent (pet tsk : string) (at_ now k : Z) (t : Table) :
  absent k t -> updateLogStamped pet tsk at_ now k t = t.
Proof.
  intros H. unfold updateLogStamped. rewrite map_absent by exact H.
  now destruct t.
Qed.

Lemma updateLog_absent (pet tsk : string) (at_ now k : Z) (t : Table) :
  absent k t -> updateLog pet tsk at_ now k t = t.
Proof.
  intros H. unfold updateLog. rewrite map_absent by exact H.
  now destruct t.
Qed.

Lemma filter_absent (k : Z) (l : list LogRow) :
  (forall r, In r l -> id r <> k) ->
  filter (fun r => negb (id r =? k)) l = l.
Proof.
  induction l as [| x l IH]; simpl; intros H.
  - reflexivity.
  - destruct (Z.eqb_spec (id x) k) as [E | _]; simpl.
    + exfalso. exact (H x (or_introl eq_refl) E).
    + f_equal. apply IH. intros r Hr. apply H. now right.
Qed.

Lemma deleteLog_absent (k : Z) (t : Table) :
  absent k t -> deleteLog k t = (0, t).
Proof.
  intros H. unfold deleteLog.
  rewrite selectById_absent by exact H.
  rewrite filter_absent by exact H. now destruct t.
Qed.

(** After [DELETE ... WHERE id = k] no row has id [k]. *)
Lemma deleteLog_removes (k : Z) (t : Table) :
  absent k (snd (deleteLog k t)).
Proof.
  unfold absent, deleteLog. simpl. intros r Hr E.
  apply filter_In in Hr as [_ Hr].
  apply Z.eqb_eq in E. rewrite E in Hr. discriminate.
Qed.

(** [affectedRows] is zero exactly when no row has the id. *)
Lemma deleteLog_affected (k : Z) (t : Table) :
  fst (deleteLog k t) = 0 <-> absent k t.
Proof.
  unfold deleteLog. simpl. split.
  - intros H. apply selectById_nil_absent.
    destruct (selectById k t); [reflexivity | simpl in H; lia].
  - intros H. now rewrite selectById_absent.
Qed.

(** The id counter is above every id in use. *)
Lemma wf_fresh (t : Table) : wf t -> absent (autoIncrement t) t.
Proof.
  intros (_ & _ & H) r Hr. rewrite Forall_forall in H. specialize (H r Hr). lia.
Qed.

Lemma selectById_inserted (t : Table) (r : LogRow) :
  absent (id r) t -> filter (fun x => id x =? id r) (rows t ++ [r]) = [r].
Proof.
  intros H. rewrite filter_app.
  change (filter (fun x => id x =? id r) (rows t)) with (selectById (id r) t).
  rewrite selectById_absent by exact H. simpl. now rewrite Z.eqb_refl.
Qed.

Lemma wf_empty (stamp : bool) : wf (empty stamp).
Proof. unfold wf, empty. simpl. split; [lia | split; constructor]. Qed.

Lemma wf_insertLog (pet tsk : string) (at_ now : Z) (t : Table) :
  wf t -> wf (snd (insertLog pet tsk at_ now t)).
Proof.
  intros (Hpos & Hnd & Hlt). unfold wf, insertLog. simpl. split; [| split].
  - lia.
  - rewrite map_app. simpl.
    apply Permutation_NoDup with (l := autoIncrement t :: map id (rows t)).
    + apply Permutation_cons_append.
    + constructor; [| exact Hnd].
      rewrite in_map_iff. intros [r [E Hr]].
      rewrite Forall_forall in Hlt. specialize (Hlt r Hr). lia.
  - apply Forall_app. split.
    + eapply Forall_impl; [| exact Hlt]. simpl. intros; lia.
    + constructor; [simpl; lia | constructor].
Qed.

Lemma map_id_update (f : LogRow -> LogRow) (k : Z) (l : list LogRow) :
  (forall r, id (f r) = id r) ->
  map id (map (fun r => if id r =? k then f r else r) l) = map id l.
Proof.
  intros Hf. rewrite map_map. apply map_ext. intros r.
  destruct (id r =? k); [apply Hf | reflexivity].
Qed.

Lemma wf_updateLogStamped (pet tsk : string) (at_ now k : Z) (t : Table) :
  wf t -> wf (updateLogStamped pet tsk at_ now k t).
Proof.
  intros (Hpos & Hnd & Hlt). unfold wf, updateLogStamped. simpl. split; [| split].
  - exact Hpos.
  - rewrite map_id_update by reflexivity. exact Hnd.
  - rewrite Forall_map. eapply Forall_impl; [| exact Hlt].
    simpl. intros r Hr. now destruct (id r =? k).
Qed.

Lemma wf_updateLog (pet tsk : string) (at_ now k : Z) (t : Table) :
  wf t -> wf (updateLog pet tsk at_ now k t).
Proof.
  intros (Hpos & Hnd & Hlt). unfold wf, updateLog. simpl. split; [| split].
  - exact Hpos.
  - rewrite map_id_update by reflexivity. exact Hnd.
  - rewrite Forall_map. eapply Forall_impl; [| exact Hlt].
    simpl. intros r Hr. now destruct (id r =? k).
Qed.

Lemma NoDup_map_filter (f : LogRow -> bool) (l : list LogRow) :
  NoDup (map id l) -> NoDup (map id (filter f l)).
Proof.
  induction l as [| x l IH]; simpl; intros H.
  - constructor.
  - inversion H as [| ? ? Hx Hl]; subst. destruct (f x); simpl.
    + constructor; [| auto].
      rewrite in_map_iff. intros [r [E Hr]]. apply Hx.
      apply filter_In in Hr as [Hr _]. rewrite <- E. now apply in_map.
    + auto.
Qed.

Lemma wf_deleteLog (k : Z) (t : Table) :
  wf t -> wf (snd (deleteLog k t)).
Proof.
  intros (Hpos & Hnd & Hlt). unfold wf, deleteLog. simpl. split; [| split].
  - exact Hpos.
  - now apply NoDup_map_filter.
  - rewrite Forall_forall in *. intros r Hr.
    apply filter_In in Hr as [Hr _]. auto.
Qed.

(** The first row [SELECT ... WHERE id = k] returns after the stamped UPDATE. *)
Lemma selectById_updateLogStamped (pet tsk : string) (at_ now k : Z) (t : Table) :
  selectById k (updateLogStamped pet tsk at_ now k t)
  = map (fun r => mkLogRow (id r) pet tsk at_ (createdAt r) (Some now))
        (selectById k t).
Proof.
  unfold selectById, updateLogStamped. simpl.
  induction (rows t) as [| x l IH]; simpl.
  - reflexivity.
  - destruct (Z.eqb_spec (id x) k) as [E | E]; simpl.
    + rewrite E, Z.eqb_refl. simpl. now rewrite <- IH.
    + destruct (Z.eqb_spec (id x) k); [contradiction | exact IH].
Qed.

Lemma selectById_updateLog (pet tsk : string) (at_ now k : Z) (t : Table) :
  selectById k (updateLog pet tsk at_ now k t)
  = map (fun r => mkLogRow (id r) pet tsk at_ (createdAt r)
                    (if stampOnUpdate t && changes pet tsk at_ r
                     then Some now else updatedAt r))
        (selectById k t).
Proof.
  unfold selectById, updateLog. simpl.
  induction (rows t) as [| x l IH]; simpl.
  - reflexivity.
  - destruct (Z.eqb_spec (id x) k) as [E | E]; simpl.
    + rewrite E, Z.eqb_refl. simpl. now rewrite <- IH.
    + destruct (Z.eqb_spec (id x) k); [contradiction | exact IH].
Qed.

End DbFacts.

(* ================================================================== *)
(** ** How the handlers run *)
(* ================================================================== *)

Module HandlerFacts.
Import JS Db Http JSFacts DbFacts.
Local Open Scope string_scope.

Ltac run :=
  cbv beta iota delta [tryCatch bind ret throw lift query execute requestJson
                       newDate callTrim json json200 negb orb].

Lemma getPool_configured (s : Server) :
  configured (env s) = true -> getPool s = (Return tt, s).
Proof.
  unfold configured, getPool. intros H.
  apply andb_true_iff in H as [H H3]. apply andb_true_iff in H as [H1 H2].
  now rewrite H1, H2, H3.
Qed.

Lemma getPool_unchanged (s : Server) : snd (getPool s) = s.
Proof. unfold getPool. now destruct (_ || _). Qed.

(** A body with a member is an object, so destructuring it does not throw. *)
Lemma destructure_fields (b : JSON) (k : string) (v : JSON) (s : Server) :
  get b k = Some v ->
  destructure b s = (Return (get b "petName", get b "task", get b "time"), s).
Proof. destruct b; simpl; intros H; try discriminate; reflexivity. Qed.

Lemma destructure_nonnull (b : JSON) (s : Server) :
  b <> JNull ->
  destructure b s = (Return (get b "petName", get b "task", get b "time"), s).
Proof. destruct b; intros H; try reflexivity. now contradiction H. Qed.

Lemma destructure_unchanged (b : JSON) (s : Server) : snd (destructure b s) = s.
Proof. now destruct b. Qed.

(** *** Invariants of the table, step by step *)

Section Preserves.
Variable P : Table -> Prop.

Lemma preserves_ret {A} (a : A) : preserves P (ret a).
Proof. intros s H. exact H. Qed.

Lemma preserves_throw {A} : preserves P (@throw A).
Proof. intros s H. exact H. Qed.

Lemma preserves_lift {A} (c : completion A) : preserves P (lift c).
Proof. intros s H. exact H. Qed.

Lemma preserves_query {A} (q : Table -> A) : preserves P (query q).
Proof. intros s H. exact H. Qed.

Lemma preserves_getPool : preserves P getPool.
Proof. intros s H. now rewrite getPool_unchanged. Qed.

Lemma preserves_requestJson (req : Request) : preserves P (requestJson req).
Proof. intros s H. unfold requestJson. now destruct (bodyJson req). Qed.

Lemma preserves_destructure (b : JSON) : preserves P (destructure b).
Proof. intros s H. now rewrite destructure_unchanged. Qed.

Lemma preserves_execute {A} (q : Table -> A * Table) :
  (forall t, P t -> P (snd (q t))) -> preserves P (execute q).
Proof.
  intros Hq s H. unfold execute. specialize (Hq (logs s) H).
  now destruct (q (logs s)).
Qed.

Lemma preserves_bind {A B} (m : M A) (f : A -> M B) :
  preserves P m -> (forall a, preserves P (f a)) -> preserves P (bind m f).
Proof.
  intros Hm Hf s H. unfold bind. specialize (Hm s H).
  destruct (m s) as [[a |] s1]; simpl in *.
  - now apply Hf.
  - exact Hm.
Qed.

Lemma preserves_tryCatch (m : M Response) (r : Response) :
  preserves P m -> forall s, P (logs s) -> P (logs (snd (tryCatch m r s))).
Proof.
  intros Hm s H. unfold tryCatch. specialize (Hm s H).
  now destruct (m s) as [[a |] s1].
Qed.

End Preserves.

(** Walks through a handler body, leaving the statements sent to the store. *)
Ltac preserving :=
  repeat first
    [ apply preserves_ret | apply preserves_throw | apply preserves_lift
    | apply preserves_query | apply preserves_getPool
    | apply preserves_requestJson | apply preserves_destructure
    | apply preserves_bind; [| intros ?]
    | progress cbv zeta
    | match goal with
      | |- preserves _ (if ?c then _ else _) => destruct c
      | |- preserves _ (match ?x with _ => _ end) => destruct x
      end ].

Section WithRuntime.
Context {RT : Runtime}.

(** *** Requests without the admin role *)

Lemma POST_forbidden (se : option Session) (req : Request) (now : Z) (s : Server) :
  notAdmin se = true ->
  LogsRoute.POST se req now s
  = (json (Message "Unauthorized - Admin access required") 403, s).
Proof. intros H. unfold LogsRoute.POST. run. now rewrite H. Qed.

Lemma PUT_forbidden (se : option Session) (req : Request) (idParam : string)
    (now : Z) (s : Server) :
  notAdmin se = true ->
  LogRoute.PUT se req idParam now s
  = (json (Message "Unauthorized - Admin access required") 403, s).
Proof. intros H. unfold LogRoute.PUT. run. now rewrite H. Qed.

Lemma DELETE_forbidden (se : option Session) (idParam : string) (s : Server) :
  notAdmin se = true ->
  LogRoute.DELETE se idParam s
  = (json (Message "Unauthorized - Admin access required") 403, s).
Proof. intros H. unfold LogRoute.DELETE. run. now rewrite H. Qed.

(** *** Create *)

Lemma POST_run (se : option Session) (req : Request) (now : Z) (s : Server)
    (b : JSON) (p k ts : string) (t : Z) :
  notAdmin se = false ->
  configured (env s) = true ->
  wf (logs s) ->
  bodyJson req = Some b ->
  get b "petName" = Some (JString p) ->
  get b "task" = Some (JString k) ->
  get b "time" = Some (JString ts) ->
  p <> "" -> k <> "" -> ts <> "" ->
  Date_parse ts = Instant t ->
  let r := mkLogRow (autoIncrement (logs s)) (trim p) (trim k) t now (Some now) in
  LogsRoute.POST se req now s
  = (json (Log r) 201,
     mkServer (env s)
       (mkTable (rows (logs s) ++ [r]) (autoIncrement (logs s) + 1)
          (stampOnUpdate (logs s)))).
Proof.
  intros Hadm Hcfg Hwf Hreq Hp Hk Ht Hp0 Hk0 Ht0 Hdate r.
  unfold LogsRoute.POST. run. rewrite Hadm. run. rewrite Hreq. run.
  rewrite (destructure_fields b _ _ s Hp), Hp, Hk, Ht.
  rewrite !truthy_string by assumption. run.
  rewrite Hdate. run. rewrite (getPool_configured s Hcfg). run.
  unfold selectById, insertLog. simpl. fold r.
  change (autoIncrement (logs s)) with (id r) at 1.
  rewrite (selectById_inserted (logs s) r) by (apply wf_fresh, Hwf).
  reflexivity.
Qed.

(** *** Update and delete, once past the guards *)

Lemma PUT_run (se : option Session) (req : Request) (idParam : string)
    (now : Z) (s : Server) (b : JSON) (p k ts : string) (t : Z) :
  notAdmin se = false ->
  configured (env s) = true ->
  isInteger (Number idParam) = true ->
  bodyJson req = Some b ->
  get b "petName" = Some (JString p) ->
  get b "task" = Some (JString k) ->
  get b "time" = Some (JString ts) ->
  p <> "" -> k <> "" -> ts <> "" ->
  Date_parse ts = Instant t ->
  let t' := updateLogStamped (trim p) (trim k) t now (truncate (Number idParam)) (logs s) in
  LogRoute.PUT se req idParam now s
  = (match selectById (truncate (Number idParam)) t' with
     | [] => json (Message "Log not found") 404
     | r :: _ => json200 (Log r)
     end, mkServer (env s) t').
Proof.
  intros Hadm Hcfg Hid Hreq Hp Hk Ht Hp0 Hk0 Ht0 Hdate t'.
  unfold LogRoute.PUT. run. rewrite Hadm. run. rewrite Hreq. run.
  rewrite (destructure_fields b _ _ s Hp), Hp, Hk, Ht, Hid.
  rewrite !truthy_string by assumption. run.
  rewrite Hdate. run. rewrite (getPool_configured s Hcfg). run. simpl. fold t'.
  now destruct (selectById _ t').
Qed.

Lemma PUT_open_run (req : Request) (idParam : string) (now : Z) (s : Server)
    (b : JSON) (p k ts : string) (t : Z) :
  configured (env s) = true ->
  isInteger (Number idParam) = true ->
  bodyJson req = Some b ->
  get b "petName" = Some (JString p) ->
  get b "task" = Some (JString k) ->
  get b "time" = Some (JString ts) ->
  p <> "" -> k <> "" -> ts <> "" ->
  Date_parse ts = Instant t ->
  let t' := updateLog (trim p) (trim k) t now (truncate (Number idParam)) (logs s) in
  LogRouteOpen.PUT req idParam now s
  = (match selectById (truncate (Number idParam)) t' with
     | [] => json (Message "Log not found") 404
     | r :: _ => json200 (Log r)
     end, mkServer (env s) t').
Proof.
  intros Hcfg Hid Hreq Hp Hk Ht Hp0 Hk0 Ht0 Hdate t'.
  unfold LogRouteOpen.PUT. run. rewrite Hreq. run.
  rewrite (destructure_fields b _ _ s Hp), Hp, Hk, Ht, Hid.
  rewrite !truthy_string by assumption. run.
  rewrite Hdate. run. rewrite (getPool_configured s Hcfg). run. simpl. fold t'.
  now destruct (selectById _ t').
Qed.

Lemma DELETE_run (se : option Session) (idParam : string) (s : Server) :
  notAdmin se = false ->
  configured (env s) = true ->
  isInteger (Number idParam) = true ->
  LogRoute.DELETE se idParam s
  = (if (fst (deleteLog (truncate (Number idParam)) (logs s)) =? 0)%Z
     then json (Message "Log not found") 404 else json200 Success,
     mkServer (env s) (snd (deleteLog (truncate (Number idParam)) (logs s)))).
Proof.
  intros Hadm Hcfg Hid. unfold LogRoute.DELETE. run.
  rewrite Hadm. run. rewrite Hid. run. rewrite (getPool_configured s Hcfg).
  unfold deleteLog. simpl. now destruct (Z.of_nat _ =? 0)%Z.
Qed.

Lemma DELETE_open_run (idParam : string) (s : Server) :
  configured (env s) = true ->
  isInteger (Number idParam) = true ->
  LogRouteOpen.DELETE idParam s
  = (if (fst (deleteLog (truncate (Number idParam)) (logs s)) =? 0)%Z
     then json (Message "Log not found") 404 else json200 Success,
     mkServer (env s) (snd (deleteLog (truncate (Number idParam)) (logs s)))).
Proof.
  intros Hcfg Hid. unfold LogRouteOpen.DELETE. run.
  rewrite Hid. run. rewrite (getPool_configured s Hcfg).
  unfold deleteLog. simpl. now destruct (Z.of_nat _ =? 0)%Z.
Qed.

Lemma server_eta (s : Server) : mkServer (env s) (logs s) = s.
Proof. now destruct s. Qed.

End WithRuntime.
End HandlerFacts.

(* ================================================================== *)
(** ** Properties of the handlers, for every run time *)
(* ================================================================== *)

Section Properties.
Import JS Db Http JSFacts DbFacts HandlerFacts.
Context {RT : Runtime}.
Local Open Scope string_scope.

(** X25.  The handlers keep the table well formed: after any request the ids
    in use are still positive, pairwise distinct and below the id counter. *)
Theorem handlers_preserve_wf (se : option Session) (req : Request)
    (idParam : string) (now : Z) (s : Server) :
  wf (logs s) ->
  wf (logs (snd (LogsRoute.GET se s)))
  /\ wf (logs (snd (LogsRoute.POST se req now s)))
  /\ wf (logs (snd (LogRoute.PUT se req idParam now s)))
  /\ wf (logs (snd (LogRoute.DELETE se idParam s)))
  /\ wf (logs (snd (LogRouteOpen.PUT req idParam now s)))
  /\ wf (logs (snd (LogRouteOpen.DELETE idParam s))).
Proof.
  intros Hwf.
  refine (conj _ (conj _ (conj _ (conj _ (conj _ _))))); revert s Hwf.
  all: apply preserves_tryCatch.
  all: preserving.
  all: apply preserves_execute; intros tb Htb; simpl.
  - now apply wf_insertLog.
  - now apply wf_updateLogStamped.
  - now apply wf_deleteLog.
  - now apply wf_updateLog.
  - now apply wf_deleteLog.
Qed.

(** C3 (amended).  An id path parameter whose conversion [Number(id)] is not an
    integer (NaN, an infinity or a fraction) is answered with 400 "Invalid id"
    by update and delete, and the server state is left as it was.  This holds
    for an admin session on the guarded route (update: with a request body that
    is JSON and not null) and for every caller of the unguarded route. *)
Theorem invalid_id_rejected (se : option Session) (req : Request) (b : JSON)
    (idParam : string) (now : Z) (s : Server) :
  notAdmin se = false ->
  bodyJson req = Some b ->
  b <> JNull ->
  isInteger (Number idParam) = false ->
  LogRoute.PUT se req idParam now s = (json (Message "Invalid id") 400, s)
  /\ LogRoute.DELETE se idParam s = (json (Message "Invalid id") 400, s)
  /\ LogRouteOpen.PUT req idParam now s = (json (Message "Invalid id") 400, s)
  /\ LogRouteOpen.DELETE idParam s = (json (Message "Invalid id") 400, s).
Proof.
  intros Hadm Hreq Hb Hid. repeat split.
  - unfold LogRoute.PUT. run. rewrite Hadm. run. rewrite Hreq. run.
    rewrite (destructure_nonnull b s Hb), Hid. reflexivity.
  - unfold LogRoute.DELETE. run. rewrite Hadm. run. now rewrite Hid.
  - unfold LogRouteOpen.PUT. run. rewrite Hreq. run.
    rewrite (destructure_nonnull b s Hb), Hid. reflexivity.
  - unfold LogRouteOpen.DELETE. run. now rewrite Hid.
Qed.

(** C4.  For an admin session and a payload whose [petName], [task] and [time]
    are non-empty strings, the time parsing to an instant, create inserts one
    row holding the trimmed strings, the parsed instant and the current time in
    both [createdAt] and [updatedAt]; it answers 201 with that row, whose id is
    the next value of the id counter and is used by no other row; and the list
    read afterwards is the list read before plus exactly that row. *)
Theorem create_inserts_one_row (se : option Session) (req : Request) (now : Z)
    (s : Server) (b : JSON) (p k ts : string) (t : Z) :
  notAdmin se = false ->
  configured (env s) = true ->
  wf (logs s) ->
  bodyJson req = Some b ->
  get b "petName" = Some (JString p) ->
  get b "task" = Some (JString k) ->
  get b "time" = Some (JString ts) ->
  p <> "" -> k <> "" -> ts <> "" ->
  Date_parse ts = Instant t ->
  let r := mkLogRow (autoIncrement (logs s)) (trim p) (trim k) t now (Some now) in
  let s' := snd (LogsRoute.POST se req now s) in
  fst (LogsRoute.POST se req now s) = json (Log r) 201
  /\ rows (logs s') = (rows (logs s) ++ [r])%list
  /\ ~ In (Db.id r) (map Db.id (rows (logs s)))
  /\ forall viewer : Session,
       exists before after : list LogRow,
         fst (LogsRoute.GET (Some viewer) s) = json200 (Logs before)
         /\ fst (LogsRoute.GET (Some viewer) s') = json200 (Logs after)
         /\ Permutation after (r :: before).
Proof.
  intros Hadm Hcfg Hwf Hreq Hp Hk Ht Hp0 Hk0 Ht0 Hdate r s'.
  pose proof (POST_run se req now s b p k ts t Hadm Hcfg Hwf Hreq Hp Hk Ht
                Hp0 Hk0 Ht0 Hdate) as Hrun.
  cbv zeta in Hrun. fold r in Hrun. subst s'. rewrite Hrun. simpl.
  split; [reflexivity |]. split; [reflexivity |]. split.
  - rewrite in_map_iff. intros [x [E Hx]]. exact (wf_fresh _ Hwf x Hx E).
  - intros viewer.
    exists (selectAll (logs s)), (orderByTimeDesc (rows (logs s) ++ [r])).
    unfold LogsRoute.GET. run.
    rewrite (getPool_configured s Hcfg).
    rewrite (getPool_configured (mkServer (env s) _) Hcfg). simpl.
    split; [reflexivity |]. split; [reflexivity |].
    eapply perm_trans; [apply orderByTimeDesc_perm |].
    eapply perm_trans; [apply Permutation_sym, Permutation_cons_append |].
    apply perm_skip, Permutation_sym, orderByTimeDesc_perm.
Qed.

(** C5.  When the [time] member of the payload is a string that does not parse
    to an instant, create and update (guarded and unguarded), called by an
    admin, answer 400 and leave the server state as it was. *)
Theorem malformed_time_rejected (se : option Session) (req : Request) (b : JSON)
    (ts idParam : string) (now : Z) (s : Server) :
  notAdmin se = false ->
  bodyJson req = Some b ->
  get b "time" = Some (JString ts) ->
  Date_parse ts = InvalidDate ->
  (status (fst (LogsRoute.POST se req now s)) = 400
   /\ snd (LogsRoute.POST se req now s) = s)
  /\ (status (fst (LogRoute.PUT se req idParam now s)) = 400
      /\ snd (LogRoute.PUT se req idParam now s) = s)
  /\ (status (fst (LogRouteOpen.PUT req idParam now s)) = 400
      /\ snd (LogRouteOpen.PUT req idParam now s) = s).
Proof.
  intros Hadm Hreq Ht Hdate. repeat apply conj.
  all: unfold LogsRoute.POST, LogRoute.PUT, LogRouteOpen.PUT; run;
    rewrite ?Hadm; run; rewrite Hreq; run;
    rewrite (destructure_fields b _ _ s Ht), Ht;
    try destruct (isInteger (Number idParam)); run; try reflexivity;
    destruct (truthy (get b "petName")), (truthy (get b "task")),
      (truthy (Some (JString ts))); run; rewrite ?Hdate; reflexivity.
Qed.

(** C6.  For an admin with an integer id and a valid payload: when no row has
    the id, update and delete (guarded and unguarded) answer 404 "Log not
    found", neither the catch-all 500 nor a success, and leave the server as
    it was, so a repeated delete is answered 404 again; and whatever the table
    holds, a delete issued right after a delete of the same id is answered
    404. *)
Theorem unknown_id_not_found (se : option Session) (req : Request) (b : JSON)
    (p k ts : string) (t : Z) (idParam : string) (now : Z) (s : Server) :
  notAdmin se = false ->
  configured (env s) = true ->
  isInteger (Number idParam) = true ->
  bodyJson req = Some b ->
  get b "petName" = Some (JString p) ->
  get b "task" = Some (JString k) ->
  get b "time" = Some (JString ts) ->
  p <> "" -> k <> "" -> ts <> "" ->
  Date_parse ts = Instant t ->
  let notFound := json (Message "Log not found") 404 in
  (absent (truncate (Number idParam)) (logs s) ->
     LogRoute.PUT se req idParam now s = (notFound, s)
     /\ LogRoute.DELETE se idParam s = (notFound, s)
     /\ LogRouteOpen.PUT req idParam now s = (notFound, s)
     /\ LogRouteOpen.DELETE idParam s = (notFound, s))
  /\ (let s1 := snd (LogRoute.DELETE se idParam s) in
      LogRoute.DELETE se idParam s1 = (notFound, s1))
  /\ (let s1 := snd (LogRouteOpen.DELETE idParam s) in
      LogRouteOpen.DELETE idParam s1 = (notFound, s1)).
Proof.
  intros Hadm Hcfg Hid Hreq Hp Hk Ht Hp0 Hk0 Ht0 Hdate notFound.
  split; [intros Habs; repeat apply conj | split].
  - rewrite (PUT_run se req idParam now s b p k ts t) by assumption.
    rewrite updateLogStamped_absent, selectById_absent by assumption.
    now rewrite server_eta.
  - rewrite DELETE_run, deleteLog_absent by assumption. simpl.
    now rewrite server_eta.
  - rewrite (PUT_open_run req idParam now s b p k ts t) by assumption.
    rewrite updateLog_absent, selectById_absent by assumption.
    now rewrite server_eta.
  - rewrite DELETE_open_run, deleteLog_absent by assumption. simpl.
    now rewrite server_eta.
  - cbv zeta. rewrite (DELETE_run se idParam s) by assumption. cbn [snd].
    rewrite DELETE_run by assumption. cbn [logs env].
    rewrite (deleteLog_absent _ _ (deleteLog_removes _ (logs s))). reflexivity.
  - cbv zeta. rewrite (DELETE_open_run idParam s) by assumption. cbn [snd].
    rewrite DELETE_open_run by assumption. cbn [logs env].
    rewrite (deleteLog_absent _ _ (deleteLog_removes _ (logs s))). reflexivity.
Qed.

(** C7.  With a session, whatever its role, the list operation answers 200
    with all the rows of the table, each once, ordered by time descending;
    without a session it answers 401. *)
Theorem list_ordered_or_unauthorized (s : Server) :
  (forall se : Session,
      configured (env s) = true ->
      exists l : list LogRow,
        LogsRoute.GET (Some se) s = (json200 (Logs l), s)
        /\ Permutation l (rows (logs s))
        /\ descending l)
  /\ LogsRoute.GET None s = (json (Message "Unauthorized") 401, s).
Proof.
  split.
  - intros se Hcfg. exists (selectAll (logs s)).
    unfold LogsRoute.GET. run. rewrite (getPool_configured s Hcfg).
    split; [reflexivity |]. split.
    + apply orderByTimeDesc_perm.
    + apply orderByTimeDesc_descending.
  - reflexivity.
Qed.

(** C9.  A [petName] or [task] made of white space only passes the presence
    check of create and update, which runs before trimming; the row that is
    stored and returned then carries the empty string in that field.  Create
    does so on every well-formed table, the empty one included; update does so
    for every id that some row has. *)
Theorem whitespace_only_field_stored_empty (se : option Session) (req : Request)
    (b : JSON) (p k ts : string) (t : Z) (now : Z) (s : Server) :
  notAdmin se = false ->
  configured (env s) = true ->
  wf (logs s) ->
  bodyJson req = Some b ->
  get b "petName" = Some (JString p) ->
  get b "task" = Some (JString k) ->
  get b "time" = Some (JString ts) ->
  p <> "" -> k <> "" -> ts <> "" ->
  Date_parse ts = Instant t ->
  let stored (st : Z) (out : Response * Server) :=
    exists r : LogRow,
      out = (json (Log r) st, snd out)
      /\ In r (rows (logs (snd out)))
      /\ (allWhiteSpace p = true -> petName r = "")
      /\ (allWhiteSpace k = true -> task r = "") in
  stored 201 (LogsRoute.POST se req now s)
  /\ forall (idParam : string) (r0 : LogRow) (rest : list LogRow),
       isInteger (Number idParam) = true ->
       selectById (truncate (Number idParam)) (logs s) = r0 :: rest ->
       stored 200 (LogRoute.PUT se req idParam now s)
       /\ stored 200 (LogRouteOpen.PUT req idParam now s).
Proof.
  intros Hadm Hcfg Hwf Hreq Hp Hk Ht Hp0 Hk0 Ht0 Hdate stored.
  subst stored. cbv beta. split; [| intros idParam r0 rest Hid Hsel; split].
  - rewrite (POST_run se req now s b p k ts t) by assumption.
    eexists. split; [reflexivity |]. simpl. split.
    + apply in_or_app. right. now left.
    + split; apply trim_allWhiteSpace.
  - rewrite (PUT_run se req idParam now s b p k ts t) by assumption.
    pose proof (selectById_updateLogStamped (trim p) (trim k) t now
                  (truncate (Number idParam)) (logs s)) as E.
    rewrite Hsel in E. simpl in E. rewrite E.
    eexists. split; [reflexivity |]. simpl. split.
    + eapply proj1, filter_In. unfold selectById in E.
      unfold updateLogStamped in E. simpl in E. rewrite E. now left.
    + split; apply trim_allWhiteSpace.
  - rewrite (PUT_open_run req idParam now s b p k ts t) by assumption.
    pose proof (selectById_updateLog (trim p) (trim k) t now
                  (truncate (Number idParam)) (logs s)) as E.
    rewrite Hsel in E. simpl in E. rewrite E.
    eexists. split; [reflexivity |]. simpl. split.
    + eapply proj1, filter_In. unfold selectById in E.
      unfold updateLog in E. simpl in E. rewrite E. now left.
    + split; apply trim_allWhiteSpace.
Qed.

(** The guarded update stamps the row it returns: a successful answer carries
    [updatedAt] equal to the time of the statement. *)
Lemma PUT_refreshes_updatedAt (se : option Session) (req : Request)
    (idParam : string) (now : Z) (s : Server) (r : LogRow) :
  fst (LogRoute.PUT se req idParam now s) = json200 (Log r) ->
  updatedAt r = Some now.
Proof.
  unfold LogRoute.PUT. run.
  destruct (notAdmin se); run; [discriminate |].
  destruct (bodyJson req) as [b |]; run; [| discriminate].
  destruct (destructure b s) as [[[[pn tk] tm] |] s1]; [| discriminate].
  destruct (isInteger (Number idParam)); run; [| discriminate].
  destruct (truthy pn), (truthy tk), (truthy tm); run; try discriminate.
  destruct tm as [[| | | | |] |]; try discriminate.
  all: try match goal with
    | |- context [match ToString ?a with _ => _ end] => destruct (ToString a)
    end; try discriminate.
  all: match goal with
    | |- context [TimeClip ?n] => destruct (TimeClip n)
    | |- context [Date_parse ?x] => destruct (Date_parse x)
    | _ => idtac
    end; try discriminate.
  all: destruct (getPool s1) as [[[] |] s2]; try discriminate.
  all: destruct pn as [[| | | | |] |]; try discriminate.
  all: destruct tk as [[| | | | |] |]; try discriminate.
  all: simpl; rewrite selectById_updateLogStamped.
  all: destruct (selectById _ _); simpl; try discriminate.
  all: intros H; injection H as <-; reflexivity.
Qed.

(** The unguarded update does not stamp.  When [updated_at] is not declared
    [ON UPDATE CURRENT_TIMESTAMP], or when the payload repeats what the row
    holds, the row it returns carries the [updatedAt] the row had before. *)
Lemma PUT_open_keeps_updatedAt (req : Request) (idParam : string) (now : Z)
    (s : Server) (r : LogRow) :
  fst (LogRouteOpen.PUT req idParam now s) = json200 (Log r) ->
  exists r0 : LogRow,
    In r0 (rows (logs s))
    /\ Db.id r0 = Db.id r
    /\ (stampOnUpdate (logs s) = false
        \/ (petName r0 = petName r /\ task r0 = task r /\ time r0 = time r) ->
        updatedAt r = updatedAt r0).
Proof.
  unfold LogRouteOpen.PUT. run.
  destruct (bodyJson req) as [b |]; run; [| discriminate].
  pose proof (destructure_unchanged b s) as Hs1.
  destruct (destructure b s) as [[[[pn tk] tm] |] s1]; [| discriminate].
  simpl in Hs1. subst s1.
  destruct (isInteger (Number idParam)); run; [| discriminate].
  destruct (truthy pn), (truthy tk), (truthy tm); run; try discriminate.
  destruct tm as [[| | | | |] |]; try discriminate.
  all: try match goal with
    | |- context [match ToString ?a with _ => _ end] => destruct (ToString a)
    end; try discriminate.
  all: match goal with
    | |- context [TimeClip ?n] => destruct (TimeClip n)
    | |- context [Date_parse ?x] => destruct (Date_parse x)
    | _ => idtac
    end; try discriminate.
  all: pose proof (getPool_unchanged s) as Hs2.
  all: destruct (getPool s) as [[[] |] s2]; try discriminate.
  all: simpl in Hs2; subst s2.
  all: destruct pn as [[| | | | |] |]; try discriminate.
  all: destruct tk as [[| | | | |] |]; try discriminate.
  all: simpl; rewrite selectById_updateLog.
  all: destruct (selectById _ (logs s)) as [| r0 tl] eqn:E; simpl; try discriminate.
  all: intros H; injection H as <-; exists r0; simpl.
  all: split;
    [eapply proj1, filter_In; unfold selectById in E; rewrite E; now left |].
  all: split; [reflexivity |].
  all: intros [Hs | (E1 & E2 & E3)];
    [now rewrite Hs
    | unfold changes; rewrite E1, E2, E3, !String.eqb_refl, Z.eqb_refl;
      now rewrite andb_false_r].
Qed.

End Properties.

(* ================================================================== *)
(** ** Authentication and the client-side merge *)
(* ================================================================== *)

Section AuthAndPage.
Local Open Scope string_scope.



(** C10.  After a successful update the page maps over its list, putting the
    returned row in the place of every entry with the same id and keeping the
    other entries and the length; when no entry has the id of the returned
    row, the list stays as it was and the returned row is not in it. *)
Theorem update_merge_replaces_in_place (editing : Z) (data : Page.Log)
    (prev : list Page.Log) :
  let next := Page.mergeSubmitted (Some editing) data prev in
  List.length next = List.length prev
  /\ (forall (i : nat) (item : Page.Log),
         nth_error prev i = Some item ->
         nth_error next i
         = Some (if (Page.id item =? Page.id data)%Z then data else item))
  /\ ((forall item, In item prev -> Page.id item <> Page.id data) ->
      next = prev /\ ~ In data next).
Proof.
  intros next. subst next. unfold Page.mergeSubmitted. simpl.
  split; [apply length_map |]. split.
  - intros i item H. rewrite nth_error_map, H. reflexivity.
  - intros Habs.
    assert (E : map (fun item => if (Page.id item =? Page.id data)%Z then data else item)
                  prev = prev).
    { induction prev as [| x l IH]; simpl; [reflexivity |].
      destruct (Z.eqb_spec (Page.id x) (Page.id data)) as [E | _].
      - exfalso. exact (Habs x (or_introl eq_refl) E).
      - f_equal. apply IH. intros item Hi. apply Habs. now right. }
    rewrite E. split; [reflexivity |].
    intros Hin. exact (Habs data Hin eq_refl).
Qed.

End AuthAndPage.

(* ================================================================== *)
(** ** Worked requests on the reference run time *)
(* ================================================================== *)

Section Examples.
Import JS Db Http Reference.
Local Open Scope string_scope.

Lemma server0_wf : wf (logs server0).
Proof.
  unfold wf. simpl. split; [lia | split].
  - repeat constructor; simpl; intuition discriminate.
  - repeat constructor; simpl; lia.
Qed.

(** C1.  Create and the guarded by-id route refuse a viewer, and a caller
    without session, with 403 and leave the store as it was.  The unguarded
    by-id route never looks at the session: the same delete, from any caller,
    answers 200 and removes the row, and the same update answers 200 and
    rewrites it. *)
Theorem unguarded_route_mutates_without_admin (stamp : bool) :
  LogsRoute.POST (Some viewerSession) (payload "Rex" "Walked" "2024-01-03T08:00:00Z")
    now0 (store stamp) = (forbidden, store stamp)
  /\ LogRoute.PUT (Some viewerSession) (payload "Rex" "Walked" "2024-01-03T08:00:00Z")
       "1" now0 (store stamp) = (forbidden, store stamp)
  /\ LogRoute.DELETE (Some viewerSession) "1" (store stamp) = (forbidden, store stamp)
  /\ LogRoute.DELETE None "1" (store stamp) = (forbidden, store stamp)
  /\ LogRouteOpen.DELETE "1" (store stamp)
     = (json200 Success, mkServer env0 (mkTable [luna] 3 stamp))
  /\ (let rex := mkLogRow 1 "Rex" "Walked" 1704268800000 1704100000000
                   (if stamp then Some now0 else updatedAt milo) in
      LogRouteOpen.PUT (payload "Rex" "Walked" "2024-01-03T08:00:00Z") "1" now0
        (store stamp)
      = (json200 (Log rex), mkServer env0 (mkTable [rex; luna] 3 stamp))).
Proof. destruct stamp; repeat apply conj; vm_compute; reflexivity. Qed.

(** C2.  Row 1 is saved again with the values it holds.  The guarded update
    returns it with [updatedAt] set to the time of the statement.  The
    unguarded update succeeds and returns it with the [updatedAt] it had
    before, however [updated_at] is declared; and when the column is not
    declared [ON UPDATE CURRENT_TIMESTAMP] it does so for new values as well. *)
Theorem unguarded_update_keeps_updatedAt (stamp : bool) :
  fst (LogRoute.PUT (Some adminSession) (payload "Milo" "Fed" "2024-01-01T08:00:00Z")
         "1" now0 (store stamp))
  = json200 (Log (mkLogRow 1 "Milo" "Fed" 1704096000000 1704100000000 (Some now0)))
  /\ fst (LogRouteOpen.PUT (payload "Milo" "Fed" "2024-01-01T08:00:00Z") "1" now0
            (store stamp))
     = json200 (Log milo)
  /\ fst (LogRouteOpen.PUT (payload "Rex" "Walked" "2024-01-03T08:00:00Z") "1" now0
            (store false))
     = json200 (Log (mkLogRow 1 "Rex" "Walked" 1704268800000 1704100000000
                       (updatedAt milo)))
  /\ updatedAt milo <> Some now0.
Proof.
  destruct stamp; repeat apply conj; try (vm_compute; reflexivity);
    vm_compute; discriminate.
Qed.

(** C3, as stated, fails: ["0"] and ["-5"] are not well-formed positive
    integers, yet an admin's delete and update on them pass the id check, reach
    the store and are answered 404, not 400. *)
Lemma nonpositive_ids_pass_the_check :
  Spec.wellFormedPositiveInteger "0" = false
  /\ Spec.wellFormedPositiveInteger "-5" = false
  /\ LogRoute.DELETE (Some adminSession) "0" server0 = (notFound, server0)
  /\ LogRoute.DELETE (Some adminSession) "-5" server0 = (notFound, server0)
  /\ LogRoute.PUT (Some adminSession) (payload "Rex" "Walked" "2024-01-03T08:00:00Z")
       "-5" now0 server0 = (notFound, server0)
  /\ status (fst (LogRoute.DELETE (Some adminSession) "0" server0)) <> 400.
Proof.
  repeat apply conj; try (vm_compute; reflexivity). vm_compute. discriminate.
Qed.

Lemma invalid_id_rejected_witness :
  LogRoute.PUT (Some adminSession) (payload "Rex" "Walked" "2024-01-03T08:00:00Z")
    "1.5" now0 server0 = (json (Message "Invalid id") 400, server0)
  /\ LogRoute.DELETE (Some adminSession) "abc" server0
     = (json (Message "Invalid id") 400, server0).
Proof.
  split.
  - refine (proj1 (invalid_id_rejected (Some adminSession)
                     (payload "Rex" "Walked" "2024-01-03T08:00:00Z") _ "1.5" now0
                     server0 _ eq_refl _ _)).
    + reflexivity.
    + discriminate.
    + vm_compute. reflexivity.
  - refine (proj1 (proj2 (invalid_id_rejected (Some adminSession)
                            (payload "Rex" "Walked" "2024-01-03T08:00:00Z") _ "abc"
                            now0 server0 _ eq_refl _ _))).
    + reflexivity.
    + discriminate.
    + vm_compute. reflexivity.
Defined.

Lemma create_inserts_one_row_witness :
  fst (LogsRoute.POST (Some adminSession)
         (payload "  Milo " "Fed" "2024-01-01T08:00:00Z") now0 server0)
  = json (Log (mkLogRow 3 "Milo" "Fed" 1704096000000 now0 (Some now0))) 201.
Proof.
  refine (proj1 (create_inserts_one_row (Some adminSession)
                   (payload "  Milo " "Fed" "2024-01-01T08:00:00Z") now0 server0
                   _ "  Milo " "Fed" "2024-01-01T08:00:00Z" 1704096000000
                   _ _ server0_wf eq_refl _ _ _ _ _ _ _)).
  all: try reflexivity; try discriminate.
Defined.

Lemma malformed_time_rejected_witness :
  status (fst (LogsRoute.POST (Some adminSession) (payload "Milo" "Fed" "next tuesday")
                 now0 server0)) = 400
  /\ snd (LogsRoute.POST (Some adminSession) (payload "Milo" "Fed" "next tuesday")
            now0 server0) = server0.
Proof.
  refine (proj1 (malformed_time_rejected (Some adminSession)
                   (payload "Milo" "Fed" "next tuesday") _ "next tuesday" "1" now0
                   server0 _ eq_refl _ _)).
  all: reflexivity.
Defined.

Lemma unknown_id_not_found_witness :
  LogRoute.PUT (Some adminSession) (payload "Rex" "Walked" "2024-01-03T08:00:00Z")
    "9999" now0 server0 = (notFound, server0)
  /\ LogRoute.DELETE (Some adminSession) "9999" server0 = (notFound, server0).
Proof.
  assert (Habs : absent (truncate (Number "9999")) (logs server0)).
  { intros r [<- | [<- | []]]; vm_compute; discriminate. }
  pose proof (proj1 (unknown_id_not_found (Some adminSession)
                       (payload "Rex" "Walked" "2024-01-03T08:00:00Z") _
                       "Rex" "Walked" "2024-01-03T08:00:00Z" 1704268800000
                       "9999" now0 server0
                       eq_refl eq_refl eq_refl eq_refl eq_refl eq_refl eq_refl
                       ltac:(discriminate) ltac:(discriminate) ltac:(discriminate)
                       eq_refl) Habs) as H.
  split; [exact (proj1 H) | exact (proj1 (proj2 H))].
Defined.

Lemma list_ordered_or_unauthorized_witness :
  exists l : list LogRow,
    LogsRoute.GET (Some viewerSession) server0 = (json200 (Logs l), server0)
    /\ Permutation l [milo; luna]
    /\ descending l.
Proof.
  exact (proj1 (list_ordered_or_unauthorized server0) viewerSession eq_refl).
Defined.


Lemma whitespace_only_field_stored_empty_witness :
  exists r : LogRow,
    LogsRoute.POST (Some adminSession) (payload "   " "Fed" "2024-01-01T08:00:00Z")
      now0 (mkServer env0 (Db.empty false))
    = (json (Log r) 201,
       snd (LogsRoute.POST (Some adminSession)
              (payload "   " "Fed" "2024-01-01T08:00:00Z") now0
              (mkServer env0 (Db.empty false))))
    /\ petName r = "".
Proof.
  destruct (proj1 (whitespace_only_field_stored_empty (Some adminSession)
                     (payload "   " "Fed" "2024-01-01T08:00:00Z") _
                     "   " "Fed" "2024-01-01T08:00:00Z" 1704096000000 now0
                     (mkServer env0 (Db.empty false))
                     eq_refl eq_refl (DbFacts.wf_empty false) eq_refl eq_refl
                     eq_refl eq_refl
                     ltac:(discriminate) ltac:(discriminate) ltac:(discriminate)
                     eq_refl))
    as [r (Hr & _ & Hp & _)].
  exists r. split; [exact Hr | exact (Hp eq_refl)].
Defined.

Lemma update_merge_replaces_in_place_witness :
  Page.mergeSubmitted (Some 2) (entry 9 "Rex") [entry 1 "Milo"; entry 2 "Luna"]
  = [entry 1 "Milo"; entry 2 "Luna"].
Proof.
  refine (proj1 (proj2 (proj2 (update_merge_replaces_in_place 2 (entry 9 "Rex")
                                 [entry 1 "Milo"; entry 2 "Luna"])) _)).
  intros item [<- | [<- | []]]; simpl; lia.
Defined.

End Examples.

(* ================================================================== *)
(** ** Numerals: from the page's URL to the route's id *)
(* ================================================================== *)

Module RoundingFacts.
Import JS.

(** Rounding is exact on the integers a binary64 mantissa holds. *)
Lemma roundBinary64_integer (neg : bool) (p : Z) :
  0 < p < 2 ^ 53 ->
  roundBinary64 neg p 1
  = Finite neg (Z.to_N (p * 2 ^ (52 - Z.log2 p))) (Z.log2 p - 52).
Proof.
  intros Hp. unfold roundBinary64.
  destruct (Z.eqb_spec p 0) as [-> | _]; [lia |].
  change (Z.log2 1) with 0.
  pose proof (Z.log2_spec p ltac:(lia)) as [Hlo Hhi].
  pose proof (Z.log2_nonneg p) as HL0.
  assert (HL : Z.log2 p <= 52).
  { destruct (Z.le_gt_cases (Z.log2 p) 52) as [H | H]; [exact H |].
    exfalso. assert (2 ^ 53 <= 2 ^ Z.log2 p) by (apply Z.pow_le_mono_r; lia). lia. }
  set (L := Z.log2 p) in *.
  cbv zeta.
  replace (0 <=? L - 0 - 53) with false by (symmetry; apply Z.leb_gt; lia).
  assert (Hpow : 2 ^ 53 = 2 ^ L * 2 ^ (53 - L)).
  { rewrite <- Z.pow_add_r by lia. f_equal. lia. }
  assert (Hpos : 0 < 2 ^ (53 - L)) by (apply Z.pow_pos_nonneg; lia).
  replace (2 ^ 53 * 1 <=? p * 2 ^ (- (L - 0 - 53))) with true.
  2:{ symmetry. apply Z.leb_le. replace (- (L - 0 - 53)) with (53 - L) by lia.
      rewrite Hpow. nia. }
  replace (Z.max (L - 0 - 53 + 1) (-1074)) with (L - 52) by lia.
  replace (if 0 <=? L - 52 then p else p * 2 ^ (- (L - 52)))
    with (p * 2 ^ (52 - L)).
  2:{ destruct (Z.leb_spec 0 (L - 52)).
      - replace (52 - L) with 0 by lia. lia.
      - f_equal. f_equal. lia. }
  replace (if 0 <=? L - 52 then 1 * 2 ^ (L - 52) else 1) with 1.
  2:{ destruct (Z.leb_spec 0 (L - 52)); [| reflexivity].
      replace (L - 52) with 0 by lia. reflexivity. }
  rewrite Z.mod_1_r, Z.div_1_r. cbn [Z.mul Z.ltb Z.compare].
  replace (972 <=? L - 52) with false by (symmetry; apply Z.leb_gt; lia).
  replace (L - 52 =? 971) with false by (symmetry; apply Z.eqb_neq; lia).
  reflexivity.
Qed.

Lemma roundBinary64_exact (neg : bool) (p : Z) :
  0 <= p < 2 ^ 53 ->
  isInteger (roundBinary64 neg p 1) = true
  /\ truncate (roundBinary64 neg p 1) = (if neg then - p else p).
Proof.
  intros Hp. destruct (Z.eq_dec p 0) as [-> | Hp0].
  - destruct neg; split; reflexivity.
  - rewrite roundBinary64_integer by lia.
    pose proof (Z.log2_nonneg p) as HL0.
    assert (HL : Z.log2 p <= 52).
    { destruct (Z.le_gt_cases (Z.log2 p) 52) as [H | H]; [exact H |].
      exfalso. pose proof (Z.log2_spec p ltac:(lia)) as [Hlo _].
      assert (2 ^ 53 <= 2 ^ Z.log2 p) by (apply Z.pow_le_mono_r; lia). lia. }
    set (L := Z.log2 p) in *.
    assert (Hpos : 0 < 2 ^ (52 - L)) by (apply Z.pow_pos_nonneg; lia).
    unfold isInteger, truncate.
    rewrite Z2N.id by nia.
    replace (- (L - 52)) with (52 - L) by lia.
    rewrite Z.mod_mul by lia. rewrite Z.div_mul by lia.
    split.
    + rewrite Z.eqb_refl. apply orb_true_r.
    + destruct (Z.leb_spec 0 (L - 52)); [| reflexivity].
      replace (L - 52) with 0 by lia. replace (52 - L) with 0 by lia.
      destruct neg; lia.
Qed.

End RoundingFacts.

Module NumberFacts.
Import JS JSFacts RoundingFacts.
Local Open Scope string_scope.

Lemma digitOf_decimal_char (c : ascii) (d : N) :
  digitOf 10 c = Some d ->
  (48 <= N_of_ascii c <= 57)%N /\ d = (N_of_ascii c - 48)%N.
Proof.
  unfold digitOf. intros H.
  destruct ((48 <=? N_of_ascii c) && (N_of_ascii c <=? 57))%N eqn:E.
  - apply andb_true_iff in E as [E1 E2].
    apply N.leb_le in E1, E2.
    destruct (N_of_ascii c - 48 <? 10)%N; [| discriminate].
    injection H as <-. lia.
  - exfalso.
    destruct ((97 <=? N_of_ascii c) && (N_of_ascii c <=? 102))%N eqn:E2.
    + apply andb_true_iff in E2 as [E3 E4]. apply N.leb_le in E3, E4.
      destruct (N_of_ascii c - 87 <? 10)%N eqn:E5; [| discriminate].
      apply N.ltb_lt in E5. lia.
    + destruct ((65 <=? N_of_ascii c) && (N_of_ascii c <=? 70))%N eqn:E3;
        [| discriminate].
      apply andb_true_iff in E3 as [E4 E5]. apply N.leb_le in E4, E5.
      destruct (N_of_ascii c - 55 <? 10)%N eqn:E6; [| discriminate].
      apply N.ltb_lt in E6. lia.
Qed.

Lemma digitOf_digit (m : N) :
  (m < 10)%N -> digitOf 10 (ascii_of_N (48 + m)) = Some m.
Proof.
  intros H.
  assert (C : (m = 0 \/ m = 1 \/ m = 2 \/ m = 3 \/ m = 4 \/ m = 5 \/ m = 6
               \/ m = 7 \/ m = 8 \/ m = 9)%N) by lia.
  repeat (destruct C as [-> | C]; [reflexivity |]). subst. reflexivity.
Qed.

Lemma decimal_not_whiteSpace (c : ascii) (d : N) :
  digitOf 10 c = Some d -> isWhiteSpace c = false.
Proof.
  intros H. apply digitOf_decimal_char in H as [[H1 H2] _].
  unfold isWhiteSpace.
  destruct (N.leb_spec 9 (N_of_ascii c)), (N.leb_spec (N_of_ascii c) 13),
    (N.eqb_spec (N_of_ascii c) 32), (N.eqb_spec (N_of_ascii c) 160);
    simpl; try reflexivity; lia.
Qed.

Lemma trimEnd_allDecimal (s : string) : allDecimal s = true -> trimEnd s = s.
Proof.
  induction s as [| c s IH]; simpl; [reflexivity |].
  destruct (digitOf 10 c) as [d |] eqn:E; [| discriminate].
  intros H. rewrite (IH H). destruct s.
  - now rewrite (decimal_not_whiteSpace c d E).
  - reflexivity.
Qed.

Lemma trim_allDecimal (s : string) : allDecimal s = true -> trim s = s.
Proof.
  intros H. unfold trim.
  replace (trimStart s) with s; [now apply trimEnd_allDecimal |].
  destruct s as [| c s]; simpl in *; [reflexivity |].
  destruct (digitOf 10 c) as [d |] eqn:E; [| discriminate].
  now rewrite (decimal_not_whiteSpace c d E).
Qed.

(** Reading a numeral that [decimalDigits] wrote. *)
Lemma digits_decimalDigits (fuel : nat) :
  forall (n : N) (acc : string) (a : N) (k : nat),
    (n < 10 ^ N.of_nat (S fuel))%N ->
    exists d : nat,
      digits 10 (decimalDigits (S fuel) n acc) a k
      = digits 10 acc (a * 10 ^ N.of_nat (S d) + n)%N (k + S d).
Proof.
  induction fuel as [| f IH]; intros n acc a k Hn;
    cbn [decimalDigits]; destruct (N.ltb_spec n 10) as [Hlt | Hge].
  1, 3: exists O; cbn [digits]; rewrite N.mod_small by exact Hlt;
    rewrite (digitOf_digit n Hlt); change (N.of_nat 1) with 1%N;
    f_equal; lia.
  - change (N.of_nat 1) with 1%N in Hn. lia.
  - assert (Hdiv : (n / 10 < 10 ^ N.of_nat (S f))%N).
    { apply N.Div0.div_lt_upper_bound.
      rewrite (Nnat.Nat2N.inj_succ (S f)), N.pow_succ_r' in Hn. exact Hn. }
    destruct (IH (n / 10)%N (String (ascii_of_N (48 + n mod 10)) acc) a k Hdiv)
      as [d Hd].
    exists (S d). cbn [decimalDigits] in Hd. rewrite Hd. cbn [digits].
    rewrite (digitOf_digit (n mod 10)) by (apply N.mod_lt; lia).
    rewrite (Nnat.Nat2N.inj_succ (S d)), N.pow_succ_r'.
    pose proof (N.div_mod n 10 ltac:(lia)). f_equal; lia.
Qed.

Lemma allDecimal_decimalDigits (fuel : nat) :
  forall (n : N) (acc : string),
    allDecimal acc = true -> allDecimal (decimalDigits fuel n acc) = true.
Proof.
  induction fuel as [| f IH]; intros n acc H; cbn [decimalDigits]; [exact H |].
  assert (Hacc : allDecimal (String (ascii_of_N (48 + n mod 10)) acc) = true).
  { cbn [allDecimal]. rewrite (digitOf_digit (n mod 10)) by (apply N.mod_lt; lia). exact H. }
  destruct (n <? 10)%N; [exact Hacc | now apply IH].
Qed.

Lemma log2_fuel (n : N) : (n < 10 ^ N.of_nat (S (N.to_nat (N.log2 n))))%N.
Proof.
  rewrite Nnat.Nat2N.inj_succ, Nnat.N2Nat.id.
  destruct (N.eq_dec n 0) as [-> | Hn]; [simpl; lia |].
  pose proof (N.log2_spec n ltac:(lia)) as [_ H].
  eapply N.lt_le_trans; [exact H |].
  apply N.pow_le_mono_l. lia.
Qed.

Lemma decimal_char_cases (c : ascii) (d : N) :
  digitOf 10 c = Some d ->
  In c ["0"%char; "1"%char; "2"%char; "3"%char; "4"%char; "5"%char;
        "6"%char; "7"%char; "8"%char; "9"%char].
Proof.
  destruct c as [[] [] [] [] [] [] [] []]; vm_compute; intros H;
    try discriminate; tauto.
Qed.

Lemma unsignedDecimal_numeral (neg : bool) (s : string) (v : N) (d : nat) :
  digits 10 s 0 0 = (v, S d, "") ->
  String.eqb s "Infinity" = false ->
  unsignedDecimal neg s = roundBinary64 neg (Z.of_N v) 1.
Proof.
  intros Hd Hinf. unfold unsignedDecimal. rewrite Hinf, Hd.
  cbn. now rewrite Z.mul_1_r.
Qed.

Lemma numeral_nonempty (s : string) (v : N) (d : nat) :
  digits 10 s 0 0 = (v, S d, "") -> exists c r, s = String c r.
Proof. destruct s; [discriminate | eauto]. Qed.

Lemma Number_numeral (s : string) (v : N) (d : nat) :
  allDecimal s = true ->
  digits 10 s 0 0 = (v, S d, "") ->
  Number s = roundBinary64 false (Z.of_N v) 1
  /\ Number (String "-" s) = roundBinary64 true (Z.of_N v) 1.
Proof.
  intros Hall Hd.
  destruct (numeral_nonempty s v d Hd) as (c & r & ->).
  assert (Hc : exists x, digitOf 10 c = Some x).
  { simpl in Hall. destruct (digitOf 10 c); [eauto | discriminate]. }
  destruct Hc as [x Hx].
  assert (Hinf : String.eqb (String c r) "Infinity" = false).
  { pose proof (decimal_char_cases c x Hx) as Hin. simpl in Hin.
    repeat (destruct Hin as [<- | Hin]; [reflexivity |]). contradiction. }
  split.
  - unfold Number. rewrite (trim_allDecimal _ Hall).
    rewrite <- (unsignedDecimal_numeral false _ v d Hd Hinf).
    pose proof (decimal_char_cases c x Hx) as Hin. simpl in Hin.
    destruct Hin as [<- | Hin].
    + destruct r as [| c2 r2]; [reflexivity |].
      assert (Hc2 : exists y, digitOf 10 c2 = Some y).
      { cbn [allDecimal] in Hall. rewrite Hx in Hall. cbn [allDecimal] in Hall.
        destruct (digitOf 10 c2); [eauto | discriminate]. }
      destruct Hc2 as [y Hy].
      pose proof (decimal_char_cases c2 y Hy) as Hin2. simpl in Hin2.
      repeat (destruct Hin2 as [<- | Hin2]; [reflexivity |]). contradiction.
    + repeat (destruct Hin as [<- | Hin]; [reflexivity |]). contradiction.
  - unfold Number.
    assert (Ht : trim (String "-" (String c r)) = String "-" (String c r)).
    { unfold trim. cbn [trimStart]. change (isWhiteSpace "-") with false.
      cbv iota. cbn [trimEnd].
      change (match trimEnd r with
              | "" => if isWhiteSpace c then "" else String c ""
              | String a s0 => String c (String a s0)
              end) with (trimEnd (String c r)).
      now rewrite (trimEnd_allDecimal _ Hall). }
    rewrite Ht. cbv beta iota zeta delta [signOf].
    exact (unsignedDecimal_numeral true _ v d Hd Hinf).
Qed.

(** An integer below 2^53 in magnitude, printed and read back. *)
Lemma Number_integerToString (z : Z) :
  - 2 ^ 53 < z < 2 ^ 53 ->
  isInteger (Number (integerToString z)) = true
  /\ truncate (Number (integerToString z)) = z.
Proof.
  intros Hz. unfold integerToString.
  set (n := Z.abs_N z).
  destruct (digits_decimalDigits (N.to_nat (N.log2 n)) n "" 0 0 (log2_fuel n))
    as [d Hd].
  cbn [digits] in Hd. rewrite N.mul_0_l, N.add_0_l in Hd. cbn [plus] in Hd.
  pose proof (allDecimal_decimalDigits (S (N.to_nat (N.log2 n))) n ""
                eq_refl) as Hall.
  destruct (Number_numeral _ n d Hall Hd) as [Hpos Hneg].
  assert (Hn : Z.of_N n = Z.abs z) by (subst n; apply N2Z.inj_abs_N).
  destruct (Z.ltb_spec z 0) as [Hlt | Hge].
  - rewrite Hneg.
    destruct (roundBinary64_exact true (Z.of_N n) ltac:(lia)) as [Hi Ht].
    split; [exact Hi | rewrite Ht; lia].
  - rewrite Hpos.
    destruct (roundBinary64_exact false (Z.of_N n) ltac:(lia)) as [Hi Ht].
    split; [exact Hi | rewrite Ht; lia].
Qed.

End NumberFacts.

(* ================================================================== *)
(** ** Every way a handler can end *)
(* ================================================================== *)

Module OutcomeFacts.
Import JS Db Http Outcome JSFacts DbFacts HandlerFacts.
Local Open Scope string_scope.

Ltac step :=
  cbv beta iota delta [tryCatch bind ret throw lift query execute requestJson
                       json json200].

Lemma getPool_unconfigured (s : Server) :
  configured (env s) = false -> getPool s = (Throw, s).
Proof.
  unfold configured, getPool. intros H.
  destruct (envSet (MYSQL_HOST (env s))), (envSet (MYSQL_DATABASE (env s))),
    (envSet (MYSQL_USER (env s))); simpl in *; try discriminate; reflexivity.
Qed.

Lemma null_or_not (b : JSON) : b = JNull \/ b <> JNull.
Proof. destruct b; (now left) || (right; discriminate). Qed.

Lemma callTrim_string (v : value) (x : string) :
  callTrim v = Return x -> exists y, v = Some (JString y) /\ x = trim y.
Proof.
  destruct v as [[| | | y | |] |]; simpl; intros H; try discriminate.
  injection H as <-. eauto.
Qed.

Lemma truthy_string_inv (y : string) :
  truthy (Some (JString y)) = true -> y <> "".
Proof. simpl. intros H ->. discriminate. Qed.

Lemma selectById_insertLog (pet tsk : string) (at_ now : Z) (t : Table) :
  exists r rest,
    selectById (autoIncrement t) (snd (insertLog pet tsk at_ now t)) = r :: rest.
Proof.
  unfold selectById, insertLog. simpl. rewrite filter_app. simpl.
  rewrite Z.eqb_refl.
  destruct (filter _ (rows t)) as [| x l]; simpl; eauto.
Qed.

Lemma selectById_updateLogStamped_nil (pet tsk : string) (at_ now k : Z) (t : Table) :
  selectById k (updateLogStamped pet tsk at_ now k t) = [] -> absent k t.
Proof.
  rewrite selectById_updateLogStamped. intros H.
  apply selectById_nil_absent. now destruct (selectById k t).
Qed.

Lemma selectById_updateLog_nil (pet tsk : string) (at_ now k : Z) (t : Table) :
  selectById k (updateLog pet tsk at_ now k t) = [] -> absent k t.
Proof.
  rewrite selectById_updateLog. intros H.
  apply selectById_nil_absent. now destruct (selectById k t).
Qed.

Section WithRuntime.
Context {RT : Runtime}.

Lemma GET_outcomes (se : option Session) (s : Server) :
  (se = None /\ LogsRoute.GET se s = (json (Message "Unauthorized") 401, s))
  \/ (se <> None /\ configured (env s) = false
      /\ LogsRoute.GET se s = (json (Message "Failed to fetch logs") 500, s))
  \/ (se <> None /\ configured (env s) = true
      /\ LogsRoute.GET se s = (json200 (Logs (selectAll (logs s))), s)).
Proof.
  unfold LogsRoute.GET. step. destruct se as [x |]; [right | now left].
  destruct (configured (env s)) eqn:Hcfg.
  - right. rewrite (getPool_configured s Hcfg). repeat split; discriminate.
  - left. rewrite (getPool_unconfigured s Hcfg). repeat split; discriminate.
Qed.

Lemma POST_outcomes (se : option Session) (req : Request) (now : Z) (s : Server) :
  let out := LogsRoute.POST se req now s in
  (notAdmin se = true
   /\ out = (json (Message "Unauthorized - Admin access required") 403, s))
  \/ (notAdmin se = false
      /\ (out = (json (Message "Failed to create log") 500, s)
          \/ out = (json (Message "petName, task, and time are required") 400, s)
          \/ out = (json (Message "Invalid time format") 400, s)
          \/ (configured (env s) = true /\ created req now s out))).
Proof.
  cbv zeta. unfold LogsRoute.POST. step.
  destruct (notAdmin se) eqn:Hadm; step; [left; auto | right; split; [reflexivity |]].
  destruct (bodyJson req) as [b |] eqn:Hreq; step; [| auto].
  destruct (null_or_not b) as [-> | Hb]; [auto |].
  rewrite (destructure_nonnull b s Hb).
  destruct (truthy (get b "petName")) eqn:Tp; [| simpl; auto].
  destruct (truthy (get b "task")) eqn:Tk; [| simpl; auto].
  destruct (truthy (get b "time")) eqn:Tt; [| simpl; auto].
  cbn [negb orb].
  destruct (newDate (get b "time")) as [[| t] |] eqn:Hd; step; auto.
  destruct (configured (env s)) eqn:Hcfg;
    [rewrite (getPool_configured s Hcfg)
    | rewrite (getPool_unconfigured s Hcfg); auto].
  destruct (callTrim (get b "petName")) as [p' |] eqn:Cp; [| auto].
  destruct (callTrim (get b "task")) as [k' |] eqn:Ck; [| auto].
  apply callTrim_string in Cp as (p & Ep & ->), Ck as (k & Ek & ->).
  destruct (selectById_insertLog (trim p) (trim k) t now (logs s))
    as (r & rest & Hsel).
  do 3 right. split; [reflexivity |].
  exists p, k, t, r, rest.
  rewrite Ep in Tp. rewrite Ek in Tk.
  split; [exists b; repeat (split; [first [assumption | now apply truthy_string_inv] |]);
          assumption |].
  split; [exact Hsel |].
  unfold insertLog in *. simpl in *. now rewrite Hsel.
Qed.

Lemma PUT_outcomes (se : option Session) (req : Request) (idParam : string)
    (now : Z) (s : Server) :
  let out := LogRoute.PUT se req idParam now s in
  (notAdmin se = true
   /\ out = (json (Message "Unauthorized - Admin access required") 403, s))
  \/ (notAdmin se = false
      /\ (out = (json (Message "Failed to update log") 500, s)
          \/ (isInteger (Number idParam) = false
              /\ out = (json (Message "Invalid id") 400, s))
          \/ out = (json (Message "petName, task, and time are required") 400, s)
          \/ out = (json (Message "Invalid time format") 400, s)
          \/ (configured (env s) = true /\ isInteger (Number idParam) = true
              /\ ((absent (truncate (Number idParam)) (logs s)
                   /\ out = (json (Message "Log not found") 404, s))
                  \/ updated updateLogStamped req idParam now s out)))).
Proof.
  cbv zeta. unfold LogRoute.PUT. step.
  destruct (notAdmin se) eqn:Hadm; step; [left; auto | right; split; [reflexivity |]].
  destruct (bodyJson req) as [b |] eqn:Hreq; step; [| auto].
  destruct (null_or_not b) as [-> | Hb]; [auto |].
  rewrite (destructure_nonnull b s Hb). cbv zeta.
  destruct (isInteger (Number idParam)) eqn:Hid; [| simpl; auto].
  destruct (truthy (get b "petName")) eqn:Tp; [| simpl; auto].
  destruct (truthy (get b "task")) eqn:Tk; [| simpl; auto].
  destruct (truthy (get b "time")) eqn:Tt; [| simpl; auto].
  cbn [negb orb].
  destruct (newDate (get b "time")) as [[| t] |] eqn:Hd; step; auto.
  destruct (configured (env s)) eqn:Hcfg;
    [rewrite (getPool_configured s Hcfg)
    | rewrite (getPool_unconfigured s Hcfg); auto].
  destruct (callTrim (get b "petName")) as [p' |] eqn:Cp; [| auto].
  destruct (callTrim (get b "task")) as [k' |] eqn:Ck; [| auto].
  apply callTrim_string in Cp as (p & Ep & ->), Ck as (k & Ek & ->).
  do 4 right. split; [reflexivity |]. split; [reflexivity |].
  cbn [logs env].
  destruct (selectById _ (updateLogStamped _ _ _ _ _ _)) as [| r rest] eqn:Hsel.
  - left. pose proof (selectById_updateLogStamped_nil _ _ _ _ _ _ Hsel) as Habs.
    split; [exact Habs |].
    now rewrite (updateLogStamped_absent _ _ _ _ _ _ Habs), server_eta.
  - right. exists p, k, t, r, rest.
    rewrite Ep in Tp. rewrite Ek in Tk.
    split; [exists b; repeat (split; [first [assumption | now apply truthy_string_inv] |]);
            assumption |].
    split; [exact Hsel | reflexivity].
Qed.

Lemma PUT_open_outcomes (req : Request) (idParam : string) (now : Z) (s : Server) :
  let out := LogRouteOpen.PUT req idParam now s in
  out = (json (Message "Failed to update log") 500, s)
  \/ (isInteger (Number idParam) = false
      /\ out = (json (Message "Invalid id") 400, s))
  \/ out = (json (Message "petName, task, and time are required") 400, s)
  \/ out = (json (Message "Invalid time format") 400, s)
  \/ (configured (env s) = true /\ isInteger (Number idParam) = true
      /\ ((absent (truncate (Number idParam)) (logs s)
           /\ out = (json (Message "Log not found") 404, s))
          \/ updated updateLog req idParam now s out)).
Proof.
  cbv zeta. unfold LogRouteOpen.PUT. step.
  destruct (bodyJson req) as [b |] eqn:Hreq; step; [| auto].
  destruct (null_or_not b) as [-> | Hb]; [auto |].
  rewrite (destructure_nonnull b s Hb). cbv zeta.
  destruct (isInteger (Number idParam)) eqn:Hid; [| simpl; auto].
  destruct (truthy (get b "petName")) eqn:Tp; [| simpl; auto].
  destruct (truthy (get b "task")) eqn:Tk; [| simpl; auto].
  destruct (truthy (get b "time")) eqn:Tt; [| simpl; auto].
  cbn [negb orb].
  destruct (newDate (get b "time")) as [[| t] |] eqn:Hd; step; auto.
  destruct (configured (env s)) eqn:Hcfg;
    [rewrite (getPool_configured s Hcfg)
    | rewrite (getPool_unconfigured s Hcfg); auto].
  destruct (callTrim (get b "petName")) as [p' |] eqn:Cp; [| auto].
  destruct (callTrim (get b "task")) as [k' |] eqn:Ck; [| auto].
  apply callTrim_string in Cp as (p & Ep & ->), Ck as (k & Ek & ->).
  do 4 right. split; [reflexivity |]. split; [reflexivity |].
  cbn [logs env].
  destruct (selectById _ (updateLog _ _ _ _ _ _)) as [| r rest] eqn:Hsel.
  - left. pose proof (selectById_updateLog_nil _ _ _ _ _ _ Hsel) as Habs.
    split; [exact Habs |].
    now rewrite (updateLog_absent _ _ _ _ _ _ Habs), server_eta.
  - right. exists p, k, t, r, rest.
    rewrite Ep in Tp. rewrite Ek in Tk.
    split; [exists b; repeat (split; [first [assumption | now apply truthy_string_inv] |]);
            assumption |].
    split; [exact Hsel | reflexivity].
Qed.

Lemma DELETE_open_outcomes (idParam : string) (s : Server) :
  let out := LogRouteOpen.DELETE idParam s in
  (isInteger (Number idParam) = false
   /\ out = (json (Message "Invalid id") 400, s))
  \/ (isInteger (Number idParam) = true /\ configured (env s) = false
      /\ out = (json (Message "Failed to delete log") 500, s))
  \/ (isInteger (Number idParam) = true /\ configured (env s) = true
      /\ ((absent (truncate (Number idParam)) (logs s)
           /\ out = (json (Message "Log not found") 404, s))
          \/ deleted idParam s out)).
Proof.
  cbv zeta.
  destruct (isInteger (Number idParam)) eqn:Hid; [right | left].
  2:{ split; [reflexivity |]. unfold LogRouteOpen.DELETE. step. cbv zeta.
      now rewrite Hid. }
  destruct (configured (env s)) eqn:Hcfg.
  - right. split; [reflexivity |]. split; [reflexivity |].
    rewrite DELETE_open_run by assumption.
    unfold deleted.
    destruct (Z.eqb_spec (fst (deleteLog (truncate (Number idParam)) (logs s))) 0)
      as [E | E].
    + left. apply deleteLog_affected in E. split; [exact E |].
      now rewrite (deleteLog_absent _ _ E), server_eta.
    + right. split; [| reflexivity]. intros Habs. apply E.
      now apply deleteLog_affected.
  - left. split; [reflexivity |]. split; [reflexivity |].
    unfold LogRouteOpen.DELETE. step. cbv zeta. rewrite Hid. cbn [negb].
    now rewrite (getPool_unconfigured s Hcfg).
Qed.

Lemma DELETE_outcomes (se : option Session) (idParam : string) (s : Server) :
  let out := LogRoute.DELETE se idParam s in
  (notAdmin se = true
   /\ out = (json (Message "Unauthorized - Admin access required") 403, s))
  \/ (notAdmin se = false
      /\ ((isInteger (Number idParam) = false
           /\ out = (json (Message "Invalid id") 400, s))
          \/ (isInteger (Number idParam) = true /\ configured (env s) = false
              /\ out = (json (Message "Failed to delete log") 500, s))
          \/ (isInteger (Number idParam) = true /\ configured (env s) = true
              /\ ((absent (truncate (Number idParam)) (logs s)
                   /\ out = (json (Message "Log not found") 404, s))
                  \/ deleted idParam s out)))).
Proof.
  cbv zeta. destruct (notAdmin se) eqn:Hadm.
  - left. split; [reflexivity |]. now apply DELETE_forbidden.
  - right. split; [reflexivity |].
    assert (E : LogRoute.DELETE se idParam s = LogRouteOpen.DELETE idParam s).
    { unfold LogRoute.DELETE, LogRouteOpen.DELETE. step. now rewrite Hadm. }
    rewrite E. apply DELETE_open_outcomes.
Qed.

End WithRuntime.
End OutcomeFacts.

(* ================================================================== *)
(** ** More facts about the store *)
(* ================================================================== *)

Module StoreFacts.
Import Db DbFacts.

(** A row at least as recent as all of a list goes in front of it. *)
Lemma insertDesc_front (r : LogRow) (l : list LogRow) :
  Forall (fun x => time x <= time r) l -> insertDesc r l = r :: l.
Proof.
  destruct l as [| x l]; [reflexivity |]. intros H. simpl.
  inversion H as [| ? ? Hx _]; subst.
  destruct (Z.leb_spec (time x) (time r)); [reflexivity | lia].
Qed.

Lemma descending_head_bound (x : LogRow) (l : list LogRow) :
  descending (x :: l) -> Forall (fun y => time y <= time x) l.
Proof. intros H. now inversion H. Qed.

(** Ordering and filtering commute: the order of the rows that stay does not
    depend on the rows that go. *)
Lemma insertDesc_filter (f : LogRow -> bool) (r : LogRow) (l : list LogRow) :
  descending l ->
  filter f (insertDesc r l)
  = if f r then insertDesc r (filter f l) else filter f l.
Proof.
  induction l as [| x l IH]; intros Hd.
  - simpl. now destruct (f r).
  - cbn [insertDesc]. destruct (Z.leb_spec (time x) (time r)) as [Hle | Hgt].
    + pose proof (descending_head_bound x l Hd) as Hb.
      assert (Hall : Forall (fun y => time y <= time r) (x :: l)).
      { constructor; [exact Hle |].
        eapply Forall_impl; [| exact Hb]. simpl. intros; lia. }
      set (l0 := x :: l) in *.
      change (filter f (r :: l0))
        with (if f r then r :: filter f l0 else filter f l0).
      destruct (f r); [| reflexivity].
      rewrite insertDesc_front; [reflexivity |].
      rewrite Forall_forall in *. intros y Hy.
      apply Hall. apply filter_In in Hy as [Hy _]. exact Hy.
    + assert (Hd' : descending l) by (now inversion Hd).
      cbn [filter]. rewrite (IH Hd').
      destruct (f x), (f r); cbn [insertDesc]; try reflexivity.
      destruct (Z.leb_spec (time x) (time r)); [lia | reflexivity].
Qed.

Lemma orderByTimeDesc_filter (f : LogRow -> bool) (l : list LogRow) :
  orderByTimeDesc (filter f l) = filter f (orderByTimeDesc l).
Proof.
  induction l as [| x l IH]; [reflexivity |].
  cbn [filter orderByTimeDesc fold_right].
  change (fold_right insertDesc [] l) with (orderByTimeDesc l).
  rewrite insertDesc_filter by apply orderByTimeDesc_descending.
  destruct (f x); [| exact IH].
  cbn [orderByTimeDesc fold_right].
  change (fold_right insertDesc [] (filter f l)) with (orderByTimeDesc (filter f l)).
  now rewrite IH.
Qed.

(** A row more recent than all the others comes first, wherever it was
    inserted. *)
Lemma orderByTimeDesc_newest (r : LogRow) (l : list LogRow) :
  Forall (fun x => time x < time r) l ->
  orderByTimeDesc (l ++ [r]) = r :: orderByTimeDesc l.
Proof.
  induction l as [| x l IH]; intros H; [reflexivity |].
  inversion H as [| ? ? Hx Hl]; subst.
  cbn [app orderByTimeDesc fold_right].
  change (fold_right insertDesc [] (l ++ [r])) with (orderByTimeDesc (l ++ [r])).
  rewrite (IH Hl). cbn [insertDesc].
  destruct (Z.leb_spec (time r) (time x)); [lia | reflexivity].
Qed.

Lemma filter_absent_none (l : list LogRow) (k : Z) :
  (forall y, In y l -> id y <> k) -> filter (fun x => id x =? k) l = [].
Proof.
  induction l as [| x l IH]; intros H; [reflexivity |].
  cbn [filter]. destruct (Z.eqb_spec (id x) k) as [E | _].
  - exfalso. exact (H x (or_introl eq_refl) E).
  - apply IH. intros y Hy. apply H. now right.
Qed.

(** In a well-formed table an id selects its row and nothing else. *)
Lemma selectById_unique (t : Table) (r : LogRow) :
  wf t -> In r (rows t) -> selectById (id r) t = [r].
Proof.
  intros (_ & Hnd & _). unfold selectById.
  induction (rows t) as [| x l IH]; intros Hin; [contradiction |].
  cbn [map] in Hnd. inversion Hnd as [| ? ? Hx Hl]; subst.
  cbn [filter]. destruct Hin as [-> | Hin].
  - rewrite Z.eqb_refl. f_equal.
    apply (filter_absent_none l (id r)). intros y Hy E. apply Hx.
    rewrite <- E. now apply in_map.
  - destruct (Z.eqb_spec (id x) (id r)) as [E | _].
    + exfalso. apply Hx. rewrite E. now apply in_map.
    + now apply IH.
Qed.

Lemma wf_unique (t : Table) (r r' : LogRow) :
  wf t -> In r (rows t) -> In r' (rows t) -> id r' = id r -> r' = r.
Proof.
  intros Hwf Hr Hr' E.
  pose proof (selectById_unique t r Hwf Hr) as H1.
  pose proof (selectById_unique t r' Hwf Hr') as H2.
  rewrite E, H1 in H2. now injection H2.
Qed.

(** No statement changes the id or the creation stamp of a row that stays:
    rows are created with both and keep them. *)
Lemma statement_keeps_createdAt (t t' : Table) :
  statement t t' ->
  wf t ->
  forall r r', In r (rows t) -> In r' (rows t') -> id r' = id r ->
               createdAt r' = createdAt r.
Proof.
  intros Hst Hwf r r' Hr Hr' E. destruct Hst; simpl in Hr'.
  - now rewrite (wf_unique t r r' Hwf Hr Hr' E).
  - apply in_app_or in Hr' as [Hr' | [<- | []]].
    + now rewrite (wf_unique t r r' Hwf Hr Hr' E).
    + simpl in E. exfalso. exact (wf_fresh t Hwf r Hr (eq_sym E)).
  - apply in_map_iff in Hr' as (x & <- & Hx).
    destruct (id x =? k) eqn:Ek; simpl in E |- *;
      now rewrite (wf_unique t r x Hwf Hr Hx E).
  - apply in_map_iff in Hr' as (x & <- & Hx).
    destruct (id x =? k) eqn:Ek; simpl in E |- *;
      now rewrite (wf_unique t r x Hwf Hr Hx E).
  - apply filter_In in Hr' as [Hr' _].
    now rewrite (wf_unique t r r' Hwf Hr Hr' E).
Qed.

(** An update keeps the ids of the table, in their order. *)
Lemma updateLogStamped_ids (pet tsk : string) (at_ now k : Z) (t : Table) :
  map id (rows (updateLogStamped pet tsk at_ now k t)) = map id (rows t).
Proof. unfold updateLogStamped. simpl. now apply map_id_update. Qed.


(** Deleting the row just inserted gives the rows back. *)
Lemma delete_inserted (pet tsk : string) (at_ now : Z) (t : Table) :
  wf t ->
  rows (snd (deleteLog (autoIncrement t) (snd (insertLog pet tsk at_ now t))))
  = rows t.
Proof.
  intros Hwf. unfold deleteLog, insertLog. simpl.
  rewrite filter_app. simpl. rewrite Z.eqb_refl. simpl.
  rewrite app_nil_r. apply filter_absent. now apply wf_fresh.
Qed.

End StoreFacts.

(* ================================================================== *)
(** ** More facts about strings *)
(* ================================================================== *)

Module TrimFacts.
Import JS JSFacts.
Local Open Scope string_scope.

Lemma trim_no_leading_whiteSpace (s : string) :
  startsWithWhiteSpace (trim s) = false.
Proof.
  destruct (trim s) as [| c r] eqn:E; [reflexivity |].
  simpl. exact (trim_head s c r E).
Qed.

Lemma trimEnd_no_trailing_whiteSpace (s : string) :
  endsWithWhiteSpace (trimEnd s) = false.
Proof.
  induction s as [| c s IH]; [reflexivity |].
  cbn [trimEnd]. destruct (trimEnd s) as [| a t] eqn:E.
  - destruct (isWhiteSpace c) eqn:Hc; simpl; [reflexivity | exact Hc].
  - exact IH.
Qed.

Lemma trim_no_trailing_whiteSpace (s : string) :
  endsWithWhiteSpace (trim s) = false.
Proof. apply trimEnd_no_trailing_whiteSpace. Qed.

Lemma trimEnd_idempotent (s : string) : trimEnd (trimEnd s) = trimEnd s.
Proof.
  induction s as [| c s IH]; [reflexivity |].
  cbn [trimEnd]. destruct (trimEnd s) as [| a t] eqn:E.
  - destruct (isWhiteSpace c) eqn:Hc; [reflexivity |].
    cbn [trimEnd]. now rewrite Hc.
  - cbn [trimEnd] in *. now rewrite IH.
Qed.

Lemma trim_idempotent (s : string) : trim (trim s) = trim s.
Proof.
  unfold trim at 1.
  assert (E : trimStart (trim s) = trim s).
  { pose proof (trim_no_leading_whiteSpace s) as H.
    destruct (trim s) as [| c r]; [reflexivity |].
    simpl in *. now rewrite H. }
  rewrite E. apply trimEnd_idempotent.
Qed.

(** White space only is read as the number 0. *)
Lemma Number_allWhiteSpace (s : string) :
  allWhiteSpace s = true -> Number s = Finite false 0 0.
Proof. intros H. unfold Number. now rewrite (trim_allWhiteSpace s H). Qed.

End TrimFacts.

(* ================================================================== *)
(** ** Further properties of the handlers *)
(* ================================================================== *)

Section MoreProperties.
Import JS Db Http Outcome JSFacts DbFacts HandlerFacts OutcomeFacts.
Import StoreFacts TrimFacts NumberFacts.
Context {RT : Runtime}.
Local Open Scope string_scope.

(** *** Forward runs on a valid payload *)

Lemma POST_valid (se : option Session) (req : Request) (now : Z) (s : Server)
    (p k : string) (t : Z) :
  notAdmin se = false ->
  configured (env s) = true ->
  wf (logs s) ->
  validPayload req p k t ->
  let r := mkLogRow (autoIncrement (logs s)) (trim p) (trim k) t now (Some now) in
  LogsRoute.POST se req now s
  = (json (Log r) 201,
     mkServer (env s)
       (mkTable (rows (logs s) ++ [r]) (autoIncrement (logs s) + 1)
          (stampOnUpdate (logs s)))).
Proof.
  intros Hadm Hcfg Hwf (b & Hreq & Hp & Hp0 & Hk & Hk0 & Tt & Hd) r.
  unfold LogsRoute.POST. step. rewrite Hadm. step. rewrite Hreq. step.
  rewrite (destructure_fields b _ _ s Hp), Hp, Hk, Tt.
  rewrite !truthy_string by assumption. cbn [negb orb].
  rewrite <- Hp, Hd. step. rewrite (getPool_configured s Hcfg).
  rewrite Hp. cbn [callTrim]. cbv beta iota.
  unfold selectById, insertLog. simpl. fold r.
  change (autoIncrement (logs s)) with (Db.id r) at 1.
  rewrite (selectById_inserted (logs s) r) by (apply wf_fresh, Hwf).
  reflexivity.
Qed.

Lemma PUT_valid (se : option Session) (req : Request) (idParam : string)
    (now : Z) (s : Server) (p k : string) (t : Z) :
  notAdmin se = false ->
  configured (env s) = true ->
  isInteger (Number idParam) = true ->
  validPayload req p k t ->
  let t' := updateLogStamped (trim p) (trim k) t now (truncate (Number idParam))
              (logs s) in
  LogRoute.PUT se req idParam now s
  = (match selectById (truncate (Number idParam)) t' with
     | [] => json (Message "Log not found") 404
     | r :: _ => json200 (Log r)
     end, mkServer (env s) t').
Proof.
  intros Hadm Hcfg Hid (b & Hreq & Hp & Hp0 & Hk & Hk0 & Tt & Hd) t'.
  unfold LogRoute.PUT. step. rewrite Hadm. step. rewrite Hreq. step.
  rewrite (destructure_fields b _ _ s Hp), Hp, Hk, Tt. cbv zeta. rewrite Hid.
  rewrite !truthy_string by assumption. cbn [negb orb].
  rewrite <- Hp, Hd. step. rewrite (getPool_configured s Hcfg).
  rewrite Hp. cbn [callTrim]. cbv beta iota. cbn [logs env]. fold t'.
  now destruct (selectById _ t').
Qed.

Lemma PUT_open_valid (req : Request) (idParam : string) (now : Z) (s : Server)
    (p k : string) (t : Z) :
  configured (env s) = true ->
  isInteger (Number idParam) = true ->
  validPayload req p k t ->
  let t' := updateLog (trim p) (trim k) t now (truncate (Number idParam)) (logs s) in
  LogRouteOpen.PUT req idParam now s
  = (match selectById (truncate (Number idParam)) t' with
     | [] => json (Message "Log not found") 404
     | r :: _ => json200 (Log r)
     end, mkServer (env s) t').
Proof.
  intros Hcfg Hid (b & Hreq & Hp & Hp0 & Hk & Hk0 & Tt & Hd) t'.
  unfold LogRouteOpen.PUT. step. rewrite Hreq. step.
  rewrite (destructure_fields b _ _ s Hp), Hp, Hk, Tt. cbv zeta. rewrite Hid.
  rewrite !truthy_string by assumption. cbn [negb orb].
  rewrite <- Hp, Hd. step. rewrite (getPool_configured s Hcfg).
  rewrite Hp. cbn [callTrim]. cbv beta iota. cbn [logs env]. fold t'.
  now destruct (selectById _ t').
Qed.

(** X1.  A session without the admin role, or no session, gets 403 from
    create and from the guarded update and delete, whatever the payload and
    the id, and the server stays as it was. *)
Theorem non_admin_gets_403 (se : option Session) (req : Request)
    (idParam : string) (now : Z) (s : Server) :
  notAdmin se = true ->
  let forbidden := json (Message "Unauthorized - Admin access required") 403 in
  LogsRoute.POST se req now s = (forbidden, s)
  /\ LogRoute.PUT se req idParam now s = (forbidden, s)
  /\ LogRoute.DELETE se idParam s = (forbidden, s).
Proof.
  intros H forbidden. split; [| split].
  - now apply POST_forbidden.
  - now apply PUT_forbidden.
  - now apply DELETE_forbidden.
Qed.

(** X2.  When [petName], [task] or [time] is missing from the payload or is
    falsy (null, false, 0, the empty string), create and update answer 400
    "petName, task, and time are required" and leave the server as it was;
    update does so once the id has passed its check. *)
Theorem missing_field_rejected (se : option Session) (req : Request) (b : JSON)
    (idParam : string) (now : Z) (s : Server) :
  notAdmin se = false ->
  bodyJson req = Some b ->
  b <> JNull ->
  truthy (get b "petName") = false \/ truthy (get b "task") = false
  \/ truthy (get b "time") = false ->
  let required := json (Message "petName, task, and time are required") 400 in
  LogsRoute.POST se req now s = (required, s)
  /\ (isInteger (Number idParam) = true ->
      LogRoute.PUT se req idParam now s = (required, s)
      /\ LogRouteOpen.PUT req idParam now s = (required, s)).
Proof.
  intros Hadm Hreq Hb Hmiss required.
  assert (E : negb (truthy (get b "petName")) || negb (truthy (get b "task"))
              || negb (truthy (get b "time")) = true).
  { destruct Hmiss as [-> | [-> | ->]]; simpl;
      rewrite ?orb_true_r; reflexivity. }
  split; [| intros Hid; split].
  - unfold LogsRoute.POST. step. rewrite Hadm. step. rewrite Hreq. step.
    now rewrite (destructure_nonnull b s Hb), E.
  - unfold LogRoute.PUT. step. rewrite Hadm. step. rewrite Hreq. step.
    rewrite (destructure_nonnull b s Hb). cbv zeta. now rewrite Hid, E.
  - unfold LogRouteOpen.PUT. step. rewrite Hreq. step.
    rewrite (destructure_nonnull b s Hb). cbv zeta. now rewrite Hid, E.
Qed.

(** X3.  A request body that is not JSON, or is the JSON value null, makes
    create and update answer with their catch-all 500 and leave the server as
    it was; update reads the body first, so this holds for every id
    parameter, well formed or not. *)
Theorem unreadable_body_is_500 (se : option Session) (req : Request)
    (idParam : string) (now : Z) (s : Server) :
  notAdmin se = false ->
  bodyJson req = None \/ bodyJson req = Some JNull ->
  LogsRoute.POST se req now s = (json (Message "Failed to create log") 500, s)
  /\ LogRoute.PUT se req idParam now s
     = (json (Message "Failed to update log") 500, s)
  /\ LogRouteOpen.PUT req idParam now s
     = (json (Message "Failed to update log") 500, s).
Proof.
  intros Hadm Hbody. split; [| split].
  all: unfold LogsRoute.POST, LogRoute.PUT, LogRouteOpen.PUT; step;
    rewrite ?Hadm; step; destruct Hbody as [-> | ->]; reflexivity.
Qed.

(** X4.  When [petName] or [task] is truthy without being a string (a number,
    true, an array, an object) and the rest of the payload is in order, the
    call of [trim] throws before any statement is sent: create and update
    answer 500, not 400, and the server stays as it was. *)
Theorem non_string_field_is_500 (se : option Session) (req : Request) (b : JSON)
    (t : Z) (idParam : string) (now : Z) (s : Server) :
  notAdmin se = false ->
  bodyJson req = Some b ->
  truthy (get b "petName") = true ->
  truthy (get b "task") = true ->
  truthy (get b "time") = true ->
  newDate (get b "time") = Return (Instant t) ->
  (forall x, get b "petName" <> Some (JString x))
  \/ (forall x, get b "task" <> Some (JString x)) ->
  LogsRoute.POST se req now s = (json (Message "Failed to create log") 500, s)
  /\ (isInteger (Number idParam) = true ->
      LogRoute.PUT se req idParam now s
      = (json (Message "Failed to update log") 500, s)
      /\ LogRouteOpen.PUT req idParam now s
         = (json (Message "Failed to update log") 500, s)).
Proof.
  intros Hadm Hreq Tp Tk Tt Hd Hns.
  assert (Hb : b <> JNull) by (intros ->; discriminate).
  assert (Htrim : callTrim (get b "petName") = Throw
                  \/ callTrim (get b "task") = Throw).
  { destruct Hns as [H | H]; [left | right].
    - destruct (get b "petName") as [[| | | x | |] |]; try reflexivity.
      now contradiction (H x).
    - destruct (get b "task") as [[| | | x | |] |]; try reflexivity.
      now contradiction (H x). }
  split; [| intros Hid; split].
  - unfold LogsRoute.POST. step. rewrite Hadm. step. rewrite Hreq. step.
    rewrite (destructure_nonnull b s Hb), Tp, Tk, Tt. cbn [negb orb].
    rewrite Hd. step.
    destruct (getPool s) as [[[] |] s1] eqn:Hpool;
      pose proof (getPool_unchanged s) as Hs; rewrite Hpool in Hs; simpl in Hs;
      subst s1; [| reflexivity].
    destruct Htrim as [-> | ->]; [reflexivity |].
    now destruct (callTrim (get b "petName")).
  - unfold LogRoute.PUT. step. rewrite Hadm. step. rewrite Hreq. step.
    rewrite (destructure_nonnull b s Hb). cbv zeta.
    rewrite Hid, Tp, Tk, Tt. cbn [negb orb]. rewrite Hd. step.
    destruct (getPool s) as [[[] |] s1] eqn:Hpool;
      pose proof (getPool_unchanged s) as Hs; rewrite Hpool in Hs; simpl in Hs;
      subst s1; [| reflexivity].
    destruct Htrim as [-> | ->]; [reflexivity |].
    now destruct (callTrim (get b "petName")).
  - unfold LogRouteOpen.PUT. step. rewrite Hreq. step.
    rewrite (destructure_nonnull b s Hb). cbv zeta.
    rewrite Hid, Tp, Tk, Tt. cbn [negb orb]. rewrite Hd. step.
    destruct (getPool s) as [[[] |] s1] eqn:Hpool;
      pose proof (getPool_unchanged s) as Hs; rewrite Hpool in Hs; simpl in Hs;
      subst s1; [| reflexivity].
    destruct Htrim as [-> | ->]; [reflexivity |].
    now destruct (callTrim (get b "petName")).
Qed.

(** X5.  When the environment lacks the host, the database or the user,
    [getPool] throws: a request that gets as far as the pool ends in the
    catch-all 500 of its handler and the server stays as it was.  This is so
    for the list with any session, for an admin's delete with an integer id,
    and for an admin's create and update with a valid payload. *)
Theorem unconfigured_pool_is_500 (se : option Session) (viewer : Session)
    (req : Request) (p k : string) (t : Z) (idParam : string) (now : Z)
    (s : Server) :
  configured (env s) = false ->
  LogsRoute.GET (Some viewer) s = (json (Message "Failed to fetch logs") 500, s)
  /\ (notAdmin se = false ->
      (isInteger (Number idParam) = true ->
       LogRoute.DELETE se idParam s = (json (Message "Failed to delete log") 500, s))
      /\ (validPayload req p k t ->
          LogsRoute.POST se req now s = (json (Message "Failed to create log") 500, s)
          /\ (isInteger (Number idParam) = true ->
              LogRoute.PUT se req idParam now s
              = (json (Message "Failed to update log") 500, s)))).
Proof.
  intros Hcfg. split; [| intros Hadm; split].
  - unfold LogsRoute.GET. step. now rewrite (getPool_unconfigured s Hcfg).
  - intros Hid. unfold LogRoute.DELETE. step. rewrite Hadm. step. cbv zeta.
    rewrite Hid. cbn [negb]. now rewrite (getPool_unconfigured s Hcfg).
  - intros (b & Hreq & Hp & Hp0 & Hk & Hk0 & Tt & Hd). split; [| intros Hid].
    + unfold LogsRoute.POST. step. rewrite Hadm. step. rewrite Hreq. step.
      rewrite (destructure_fields b _ _ s Hp), Hp, Hk, Tt.
      rewrite !truthy_string by assumption. cbn [negb orb].
      rewrite <- Hp, Hd. step. now rewrite (getPool_unconfigured s Hcfg).
    + unfold LogRoute.PUT. step. rewrite Hadm. step. rewrite Hreq. step.
      rewrite (destructure_fields b _ _ s Hp), Hp, Hk, Tt. cbv zeta. rewrite Hid.
      rewrite !truthy_string by assumption. cbn [negb orb].
      rewrite <- Hp, Hd. step. now rewrite (getPool_unconfigured s Hcfg).
Qed.

(** X6.  A request that is refused, that is, answered with 400, 401, 403 or
    404, leaves the server as it was: the handlers give these answers before
    any statement is sent or after a statement that matched no row.  The list
    never changes the server. *)
Theorem refused_requests_leave_store (se : option Session) (req : Request)
    (idParam : string) (now : Z) (s : Server) :
  let refused (out : Response * Server) :=
    In (status (fst out)) [400; 401; 403; 404] -> snd out = s in
  snd (LogsRoute.GET se s) = s
  /\ refused (LogsRoute.POST se req now s)
  /\ refused (LogRoute.PUT se req idParam now s)
  /\ refused (LogRoute.DELETE se idParam s)
  /\ refused (LogRouteOpen.PUT req idParam now s)
  /\ refused (LogRouteOpen.DELETE idParam s).
Proof.
  intros refused. subst refused. cbv beta.
  refine (conj _ (conj _ (conj _ (conj _ (conj _ _))))).
  - destruct (GET_outcomes se s) as [(_ & ->) | [(_ & _ & ->) | (_ & _ & ->)]];
      reflexivity.
  - pose proof (POST_outcomes se req now s) as H. cbv zeta in H.
    destruct H as [(_ & ->) | (_ & [-> | [-> | [-> | (_ & H)]]])];
      try reflexivity.
    destruct H as (p & k & t & r & rest & _ & _ & ->). simpl.
    intros C. exfalso. intuition discriminate.
  - pose proof (PUT_outcomes se req idParam now s) as H. cbv zeta in H.
    destruct H as [(_ & ->) | (_ & [-> | [(_ & ->) | [-> | [-> | (_ & _ & H)]]]])];
      try reflexivity.
    destruct H as [(_ & ->) | (p & k & t & r & rest & _ & _ & ->)];
      [reflexivity |]. simpl. intros C. exfalso. intuition discriminate.
  - pose proof (DELETE_outcomes se idParam s) as H. cbv zeta in H.
    destruct H as [(_ & ->) | (_ & [(_ & ->) | [(_ & _ & ->) | (_ & _ & H)]])];
      try reflexivity.
    destruct H as [(_ & ->) | (_ & ->)]; [reflexivity |].
    simpl. intros C. exfalso. intuition discriminate.
  - pose proof (PUT_open_outcomes req idParam now s) as H. cbv zeta in H.
    destruct H as [-> | [(_ & ->) | [-> | [-> | (_ & _ & H)]]]];
      try reflexivity.
    destruct H as [(_ & ->) | (p & k & t & r & rest & _ & _ & ->)];
      [reflexivity |]. simpl. intros C. exfalso. intuition discriminate.
  - pose proof (DELETE_open_outcomes idParam s) as H. cbv zeta in H.
    destruct H as [(_ & ->) | [(_ & _ & ->) | (_ & _ & H)]];
      try reflexivity.
    destruct H as [(_ & ->) | (_ & ->)]; [reflexivity |].
    simpl. intros C. exfalso. intuition discriminate.
Qed.

(** X7.  The status codes each handler can answer with: the list 200, 401 or
    500; create 201, 400, 403 or 500; the guarded update and delete 200, 400,
    403, 404 or 500; the unguarded ones 200, 400, 404 or 500. *)
Theorem answers_by_handler (se : option Session) (req : Request)
    (idParam : string) (now : Z) (s : Server) :
  In (status (fst (LogsRoute.GET se s))) [200; 401; 500]
  /\ In (status (fst (LogsRoute.POST se req now s))) [201; 400; 403; 500]
  /\ In (status (fst (LogRoute.PUT se req idParam now s))) [200; 400; 403; 404; 500]
  /\ In (status (fst (LogRoute.DELETE se idParam s))) [200; 400; 403; 404; 500]
  /\ In (status (fst (LogRouteOpen.PUT req idParam now s))) [200; 400; 404; 500]
  /\ In (status (fst (LogRouteOpen.DELETE idParam s))) [200; 400; 404; 500].
Proof.
  refine (conj _ (conj _ (conj _ (conj _ (conj _ _))))).
  - destruct (GET_outcomes se s) as [(_ & ->) | [(_ & _ & ->) | (_ & _ & ->)]];
      simpl; tauto.
  - pose proof (POST_outcomes se req now s) as H. cbv zeta in H.
    destruct H as [(_ & ->) | (_ & [-> | [-> | [-> | (_ & H)]]])];
      try (simpl; tauto).
    destruct H as (p & k & t & r & rest & _ & _ & ->). simpl. tauto.
  - pose proof (PUT_outcomes se req idParam now s) as H. cbv zeta in H.
    destruct H as [(_ & ->) | (_ & [-> | [(_ & ->) | [-> | [-> | (_ & _ & H)]]]])];
      try (simpl; tauto).
    destruct H as [(_ & ->) | (p & k & t & r & rest & _ & _ & ->)];
      simpl; tauto.
  - pose proof (DELETE_outcomes se idParam s) as H. cbv zeta in H.
    destruct H as [(_ & ->) | (_ & [(_ & ->) | [(_ & _ & ->) | (_ & _ & H)]])];
      try (simpl; tauto).
    destruct H as [(_ & ->) | (_ & ->)]; simpl; tauto.
  - pose proof (PUT_open_outcomes req idParam now s) as H. cbv zeta in H.
    destruct H as [-> | [(_ & ->) | [-> | [-> | (_ & _ & H)]]]];
      try (simpl; tauto).
    destruct H as [(_ & ->) | (p & k & t & r & rest & _ & _ & ->)];
      simpl; tauto.
  - pose proof (DELETE_open_outcomes idParam s) as H. cbv zeta in H.
    destruct H as [(_ & ->) | [(_ & _ & ->) | (_ & _ & H)]];
      try (simpl; tauto).
    destruct H as [(_ & ->) | (_ & ->)]; simpl; tauto.
Qed.

(** *** What a request does to the table *)

Lemma handler_statements (se : option Session) (req : Request)
    (idParam : string) (now : Z) (s : Server) :
  (logs (snd (LogsRoute.POST se req now s)) = logs s
   \/ exists pet tsk at_,
        logs (snd (LogsRoute.POST se req now s))
        = snd (insertLog pet tsk at_ now (logs s)))
  /\ (logs (snd (LogRoute.PUT se req idParam now s)) = logs s
      \/ exists pet tsk at_,
           logs (snd (LogRoute.PUT se req idParam now s))
           = updateLogStamped pet tsk at_ now (truncate (Number idParam)) (logs s))
  /\ (logs (snd (LogRoute.DELETE se idParam s)) = logs s
      \/ logs (snd (LogRoute.DELETE se idParam s))
         = snd (deleteLog (truncate (Number idParam)) (logs s)))
  /\ (logs (snd (LogRouteOpen.PUT req idParam now s)) = logs s
      \/ exists pet tsk at_,
           logs (snd (LogRouteOpen.PUT req idParam now s))
           = updateLog pet tsk at_ now (truncate (Number idParam)) (logs s))
  /\ (logs (snd (LogRouteOpen.DELETE idParam s)) = logs s
      \/ logs (snd (LogRouteOpen.DELETE idParam s))
         = snd (deleteLog (truncate (Number idParam)) (logs s))).
Proof.
  refine (conj _ (conj _ (conj _ (conj _ _)))).
  - pose proof (POST_outcomes se req now s) as H. cbv zeta in H.
    destruct H as [(_ & ->) | (_ & [-> | [-> | [-> | (_ & H)]]])]; auto.
    destruct H as (p & k & t & r & rest & _ & _ & ->). right. simpl. eauto.
  - pose proof (PUT_outcomes se req idParam now s) as H. cbv zeta in H.
    destruct H as [(_ & ->) | (_ & [-> | [(_ & ->) | [-> | [-> | (_ & _ & H)]]]])];
      auto.
    destruct H as [(_ & ->) | (p & k & t & r & rest & _ & _ & ->)]; auto.
    right. simpl. eauto.
  - pose proof (DELETE_outcomes se idParam s) as H. cbv zeta in H.
    destruct H as [(_ & ->) | (_ & [(_ & ->) | [(_ & _ & ->) | (_ & _ & H)]])];
      auto.
    destruct H as [(_ & ->) | (_ & ->)]; auto.
  - pose proof (PUT_open_outcomes req idParam now s) as H. cbv zeta in H.
    destruct H as [-> | [(_ & ->) | [-> | [-> | (_ & _ & H)]]]]; auto.
    destruct H as [(_ & ->) | (p & k & t & r & rest & _ & _ & ->)]; auto.
    right. simpl. eauto.
  - pose proof (DELETE_open_outcomes idParam s) as H. cbv zeta in H.
    destruct H as [(_ & ->) | [(_ & _ & ->) | (_ & _ & H)]]; auto.
    destruct H as [(_ & ->) | (_ & ->)]; auto.
Qed.

(** X8.  An admin's delete of an id that some row has answers 200 with the
    success body and removes the rows with that id and no other; the list read
    afterwards holds the rows of the list read before without them, each once,
    ordered by time descending.  The unguarded delete gives the same result. *)
Theorem delete_removes_row_from_list (se : option Session) (idParam : string)
    (s : Server) :
  notAdmin se = false ->
  configured (env s) = true ->
  isInteger (Number idParam) = true ->
  ~ absent (truncate (Number idParam)) (logs s) ->
  let others (r : LogRow) := negb (Db.id r =? truncate (Number idParam))%Z in
  let s' := snd (LogRoute.DELETE se idParam s) in
  fst (LogRoute.DELETE se idParam s) = json200 Success
  /\ rows (logs s') = filter others (rows (logs s))
  /\ absent (truncate (Number idParam)) (logs s')
  /\ LogRouteOpen.DELETE idParam s = LogRoute.DELETE se idParam s
  /\ forall viewer : Session,
       exists before after : list LogRow,
         fst (LogsRoute.GET (Some viewer) s) = json200 (Logs before)
         /\ fst (LogsRoute.GET (Some viewer) s') = json200 (Logs after)
         /\ Permutation after (filter others before)
         /\ descending after.
Proof.
  intros Hadm Hcfg Hid Hpresent others s'.
  assert (Hrun := DELETE_run se idParam s Hadm Hcfg Hid).
  assert (Hrun' := DELETE_open_run idParam s Hcfg Hid).
  assert (Haff : (fst (deleteLog (truncate (Number idParam)) (logs s)) =? 0)%Z
                 = false).
  { apply Z.eqb_neq. intros E. apply Hpresent. now apply deleteLog_affected. }
  rewrite Haff in Hrun, Hrun'. subst s'. rewrite Hrun', Hrun. cbn [fst snd logs].
  split; [reflexivity |]. split; [reflexivity |].
  split; [apply deleteLog_removes |]. split; [reflexivity |].
  intros viewer.
  exists (selectAll (logs s)),
    (selectAll (snd (deleteLog (truncate (Number idParam)) (logs s)))).
  unfold LogsRoute.GET. step.
  rewrite (getPool_configured s Hcfg).
  rewrite (getPool_configured (mkServer (env s) _) Hcfg). cbn [fst logs].
  split; [reflexivity |]. split; [reflexivity |]. split.
  - unfold selectAll, deleteLog. cbn [snd rows].
    rewrite orderByTimeDesc_filter. apply Permutation_refl.
  - apply orderByTimeDesc_descending.
Qed.

(** X9.  In a well-formed table, an admin's update of an existing row with a
    valid payload answers 200 with that row carrying the trimmed strings, the
    parsed time, its old id and creation stamp and the time of the statement
    as [updatedAt]; the table keeps its ids in their order and its id counter,
    and every other row stays as it was. *)
Theorem update_rewrites_one_row (se : option Session) (req : Request)
    (idParam : string) (now : Z) (s : Server) (p k : string) (t : Z)
    (r0 : LogRow) :
  notAdmin se = false ->
  configured (env s) = true ->
  wf (logs s) ->
  isInteger (Number idParam) = true ->
  validPayload req p k t ->
  In r0 (rows (logs s)) ->
  Db.id r0 = truncate (Number idParam) ->
  let r1 := mkLogRow (Db.id r0) (trim p) (trim k) t (createdAt r0) (Some now) in
  let s' := snd (LogRoute.PUT se req idParam now s) in
  fst (LogRoute.PUT se req idParam now s) = json200 (Log r1)
  /\ In r1 (rows (logs s'))
  /\ map Db.id (rows (logs s')) = map Db.id (rows (logs s))
  /\ autoIncrement (logs s') = autoIncrement (logs s)
  /\ forall r, In r (rows (logs s)) -> Db.id r <> Db.id r0 -> In r (rows (logs s')).
Proof.
  intros Hadm Hcfg Hwf Hid Hvalid Hr0 Eid r1 s'.
  assert (Hrun := PUT_valid se req idParam now s p k t Hadm Hcfg Hid Hvalid).
  cbv zeta in Hrun. subst s'. rewrite Hrun. cbn [fst snd logs].
  rewrite selectById_updateLogStamped, <- Eid.
  rewrite (selectById_unique (logs s) r0 Hwf Hr0). cbn [map].
  split; [reflexivity |].
  split.
  { unfold updateLogStamped. cbn [rows]. apply in_map_iff.
    exists r0. split; [| exact Hr0]. now rewrite Z.eqb_refl. }
  split; [apply updateLogStamped_ids |]. split; [reflexivity |].
  intros r Hr Hne. unfold updateLogStamped. cbn [rows]. apply in_map_iff.
  exists r. split; [| exact Hr].
  destruct (Z.eqb_spec (Db.id r) (Db.id r0)); [contradiction | reflexivity].
Qed.

(** X10.  Each request changes the table by at most one statement of its own
    kind: create by one insert, the guarded update by one stamped update, the
    unguarded update by one plain update, delete by one delete; none of them
    touches the environment. *)
Theorem handlers_send_one_statement (se : option Session) (req : Request)
    (idParam : string) (now : Z) (s : Server) :
  let kk := truncate (Number idParam) in
  (logs (snd (LogsRoute.POST se req now s)) = logs s
   \/ exists pet tsk at_,
        logs (snd (LogsRoute.POST se req now s))
        = snd (insertLog pet tsk at_ now (logs s)))
  /\ (logs (snd (LogRoute.PUT se req idParam now s)) = logs s
      \/ exists pet tsk at_,
           logs (snd (LogRoute.PUT se req idParam now s))
           = updateLogStamped pet tsk at_ now kk (logs s))
  /\ (logs (snd (LogRoute.DELETE se idParam s)) = logs s
      \/ logs (snd (LogRoute.DELETE se idParam s)) = snd (deleteLog kk (logs s)))
  /\ (logs (snd (LogRouteOpen.PUT req idParam now s)) = logs s
      \/ exists pet tsk at_,
           logs (snd (LogRouteOpen.PUT req idParam now s))
           = updateLog pet tsk at_ now kk (logs s))
  /\ (logs (snd (LogRouteOpen.DELETE idParam s)) = logs s
      \/ logs (snd (LogRouteOpen.DELETE idParam s)) = snd (deleteLog kk (logs s)))
  /\ env (snd (LogsRoute.POST se req now s)) = env s
  /\ env (snd (LogRoute.PUT se req idParam now s)) = env s
  /\ env (snd (LogRoute.DELETE se idParam s)) = env s
  /\ env (snd (LogRouteOpen.PUT req idParam now s)) = env s
  /\ env (snd (LogRouteOpen.DELETE idParam s)) = env s.
Proof.
  cbv zeta.
  destruct (handler_statements se req idParam now s) as (H1 & H2 & H3 & H4 & H5).
  do 5 (split; [assumption |]).
  refine (conj _ (conj _ (conj _ (conj _ _)))).
  - pose proof (POST_outcomes se req now s) as H. cbv zeta in H.
    destruct H as [(_ & ->) | (_ & [-> | [-> | [-> | (_ & H)]]])]; auto.
    now destruct H as (p & k & t & r & rest & _ & _ & ->).
  - pose proof (PUT_outcomes se req idParam now s) as H. cbv zeta in H.
    destruct H as [(_ & ->) | (_ & [-> | [(_ & ->) | [-> | [-> | (_ & _ & H)]]]])];
      auto.
    now destruct H as [(_ & ->) | (p & k & t & r & rest & _ & _ & ->)].
  - pose proof (DELETE_outcomes se idParam s) as H. cbv zeta in H.
    destruct H as [(_ & ->) | (_ & [(_ & ->) | [(_ & _ & ->) | (_ & _ & H)]])];
      auto.
    now destruct H as [(_ & ->) | (_ & ->)].
  - pose proof (PUT_open_outcomes req idParam now s) as H. cbv zeta in H.
    destruct H as [-> | [(_ & ->) | [-> | [-> | (_ & _ & H)]]]]; auto.
    now destruct H as [(_ & ->) | (p & k & t & r & rest & _ & _ & ->)].
  - pose proof (DELETE_open_outcomes idParam s) as H. cbv zeta in H.
    destruct H as [(_ & ->) | [(_ & _ & ->) | (_ & _ & H)]]; auto.
    now destruct H as [(_ & ->) | (_ & ->)].
Qed.

Lemma handler_statement (se : option Session) (req : Request)
    (idParam : string) (now : Z) (s : Server) :
  statement (logs s) (logs (snd (LogsRoute.POST se req now s)))
  /\ statement (logs s) (logs (snd (LogRoute.PUT se req idParam now s)))
  /\ statement (logs s) (logs (snd (LogRoute.DELETE se idParam s)))
  /\ statement (logs s) (logs (snd (LogRouteOpen.PUT req idParam now s)))
  /\ statement (logs s) (logs (snd (LogRouteOpen.DELETE idParam s))).
Proof.
  destruct (handler_statements se req idParam now s) as (H1 & H2 & H3 & H4 & H5).
  refine (conj _ (conj _ (conj _ (conj _ _)))).
  - destruct H1 as [-> | (a & b & c & ->)]; constructor.
  - destruct H2 as [-> | (a & b & c & ->)]; constructor.
  - destruct H3 as [-> | ->]; constructor.
  - destruct H4 as [-> | (a & b & c & ->)]; constructor.
  - destruct H5 as [-> | ->]; constructor.
Qed.

(** X11.  In a well-formed table no request changes the creation stamp of a
    row: a row found after the request with the id of a row found before it
    has the same [createdAt]. *)
Theorem createdAt_never_changes (se : option Session) (req : Request)
    (idParam : string) (now : Z) (s : Server) :
  wf (logs s) ->
  let kept (s' : Server) :=
    forall r r' : LogRow,
      In r (rows (logs s)) -> In r' (rows (logs s')) -> Db.id r' = Db.id r ->
      createdAt r' = createdAt r in
  kept (snd (LogsRoute.POST se req now s))
  /\ kept (snd (LogRoute.PUT se req idParam now s))
  /\ kept (snd (LogRoute.DELETE se idParam s))
  /\ kept (snd (LogRouteOpen.PUT req idParam now s))
  /\ kept (snd (LogRouteOpen.DELETE idParam s)).
Proof.
  intros Hwf kept. subst kept. cbv beta.
  destruct (handler_statement se req idParam now s) as (H1 & H2 & H3 & H4 & H5).
  refine (conj _ (conj _ (conj _ (conj _ _))));
    intros r r'; eapply statement_keeps_createdAt; eassumption.
Qed.

(** X12.  When the time of a created entry is later than the time of every
    row of a well-formed table, the list read after the create starts with the
    new row and goes on with the rows the table held before, each once, the
    whole ordered by time descending. *)
Theorem newest_entry_listed_first (se : option Session) (req : Request) (now : Z)
    (s : Server) (p k : string) (t : Z) (viewer : Session) :
  notAdmin se = false ->
  configured (env s) = true ->
  wf (logs s) ->
  validPayload req p k t ->
  Forall (fun x => Db.time x < t) (rows (logs s)) ->
  let r := mkLogRow (autoIncrement (logs s)) (trim p) (trim k) t now (Some now) in
  fst (LogsRoute.POST se req now s) = json (Log r) 201
  /\ exists tail : list LogRow,
       fst (LogsRoute.GET (Some viewer) (snd (LogsRoute.POST se req now s)))
       = json200 (Logs (r :: tail))
       /\ Permutation tail (rows (logs s))
       /\ descending (r :: tail).
Proof.
  intros Hadm Hcfg Hwf Hvalid Hnew r.
  assert (Hrun := POST_valid se req now s p k t Hadm Hcfg Hwf Hvalid).
  cbv zeta in Hrun. fold r in Hrun. rewrite Hrun. cbn [fst snd].
  split; [reflexivity |].
  unfold LogsRoute.GET. step.
  rewrite (getPool_configured (mkServer (env s) _) Hcfg). cbn [fst logs].
  unfold selectAll. cbn [rows].
  exists (orderByTimeDesc (rows (logs s))).
  pose proof (orderByTimeDesc_descending (rows (logs s) ++ [r])) as Hdesc.
  rewrite (orderByTimeDesc_newest r (rows (logs s)) Hnew) in Hdesc |- *.
  split; [reflexivity |]. split; [apply orderByTimeDesc_perm | exact Hdesc].
Qed.

(** X13.  The id the page writes into the path of an update or a delete is the
    decimal numeral of the entry's id; the route reads it back with [Number]
    as the same integer, for every id below 2^53 in magnitude. *)
Theorem url_id_round_trip (k : Z) :
  - 2 ^ 53 < k < 2 ^ 53 ->
  isInteger (Number (Page.idParam k)) = true
  /\ truncate (Number (Page.idParam k)) = k.
Proof. apply Number_integerToString. Qed.

(** X14.  Create, then delete the entry by the id in the answer, as the page
    sends it: the delete answers 200 and the table holds the rows it held
    before the create. *)
Theorem create_then_delete_restores_rows (se : option Session) (req : Request)
    (now : Z) (s : Server) (p k : string) (t : Z) :
  notAdmin se = false ->
  configured (env s) = true ->
  wf (logs s) ->
  validPayload req p k t ->
  autoIncrement (logs s) < 2 ^ 53 ->
  exists r : LogRow,
    let s1 := snd (LogsRoute.POST se req now s) in
    fst (LogsRoute.POST se req now s) = json (Log r) 201
    /\ fst (LogRoute.DELETE se (Page.idParam (Db.id r)) s1) = json200 Success
    /\ rows (logs (snd (LogRoute.DELETE se (Page.idParam (Db.id r)) s1)))
       = rows (logs s).
Proof.
  intros Hadm Hcfg Hwf Hvalid Hsmall.
  assert (Hrun := POST_valid se req now s p k t Hadm Hcfg Hwf Hvalid).
  cbv zeta in Hrun.
  set (r := mkLogRow (autoIncrement (logs s)) (trim p) (trim k) t now (Some now))
    in *.
  exists r. cbv zeta. rewrite Hrun. cbn [fst snd].
  destruct Hwf as (Hpos & Hnd & Hlt).
  destruct (Number_integerToString (Db.id r)) as [Hint Htr]; [simpl; lia |].
  fold (Page.idParam (Db.id r)) in Hint, Htr.
  pose (s1 := mkServer (env s)
                (mkTable (rows (logs s) ++ [r])%list (autoIncrement (logs s) + 1)
                   (stampOnUpdate (logs s)))).
  fold s1.
  assert (Hdel := DELETE_run se (Page.idParam (Db.id r)) s1 Hadm Hcfg Hint).
  rewrite Htr in Hdel. rewrite Hdel. cbn [fst snd logs].
  pose proof (delete_inserted (trim p) (trim k) t now (logs s)
                (conj Hpos (conj Hnd Hlt))) as Hrows.
  unfold insertLog in Hrows. cbn [snd] in Hrows. fold r in Hrows.
  split; [reflexivity |]. split; [| exact Hrows].
  destruct (Z.eqb_spec (fst (deleteLog (Db.id r) (logs s1))) 0) as [E | _];
    [| reflexivity].
  exfalso. apply deleteLog_affected in E.
  apply (E r); [apply in_or_app; right; now left | reflexivity].
Qed.

(** X15.  The strings in a row that create or update answers with never begin
    or end with white space, and trimming them again changes nothing: what
    is stored is what [trim] returned.  (For create the table is well formed,
    so that the row read back is the row inserted.) *)
Theorem stored_strings_are_trimmed (se : option Session) (req : Request)
    (idParam : string) (now : Z) (s : Server) (r : LogRow) :
  let clean (x : string) :=
    startsWithWhiteSpace x = false /\ endsWithWhiteSpace x = false
    /\ trim x = x in
  (wf (logs s) ->
   fst (LogsRoute.POST se req now s) = json (Log r) 201 ->
   clean (petName r) /\ clean (task r))
  /\ (fst (LogRoute.PUT se req idParam now s) = json200 (Log r) ->
      clean (petName r) /\ clean (task r))
  /\ (fst (LogRouteOpen.PUT req idParam now s) = json200 (Log r) ->
      clean (petName r) /\ clean (task r)).
Proof.
  intros clean.
  assert (Hclean : forall x, clean (trim x)).
  { intros x. split; [apply trim_no_leading_whiteSpace |].
    split; [apply trim_no_trailing_whiteSpace | apply trim_idempotent]. }
  split; [| split].
  - intros Hwf Hout.
    pose proof (POST_outcomes se req now s) as H. cbv zeta in H.
    destruct H as [(_ & E) | (_ & [E | [E | [E | (_ & H)]]])];
      try (rewrite E in Hout; discriminate).
    destruct H as (p & k & t & r' & rest & _ & Hsel & E).
    rewrite E in Hout. cbn [fst] in Hout. injection Hout as ->.
    unfold insertLog, selectById in Hsel. cbn [snd rows] in Hsel.
    set (new := mkLogRow (autoIncrement (logs s)) (trim p) (trim k) t now (Some now))
      in *.
    change (autoIncrement (logs s)) with (Db.id new) in Hsel at 1.
    rewrite (selectById_inserted (logs s) new) in Hsel by (apply wf_fresh, Hwf).
    injection Hsel as <- _. split; apply Hclean.
  - intros Hout.
    pose proof (PUT_outcomes se req idParam now s) as H. cbv zeta in H.
    destruct H as [(_ & E) | (_ & [E | [(_ & E) | [E | [E | (_ & _ & H)]]]])];
      try (rewrite E in Hout; discriminate).
    destruct H as [(_ & E) | (p & k & t & r' & rest & _ & Hsel & E)];
      rewrite E in Hout; [discriminate |].
    cbn [fst] in Hout. injection Hout as ->.
    rewrite selectById_updateLogStamped in Hsel.
    destruct (selectById _ (logs s)) as [| x l]; [discriminate |].
    injection Hsel as <- _. split; apply Hclean.
  - intros Hout.
    pose proof (PUT_open_outcomes req idParam now s) as H. cbv zeta in H.
    destruct H as [E | [(_ & E) | [E | [E | (_ & _ & H)]]]];
      try (rewrite E in Hout; discriminate).
    destruct H as [(_ & E) | (p & k & t & r' & rest & _ & Hsel & E)];
      rewrite E in Hout; [discriminate |].
    cbn [fst] in Hout. injection Hout as ->.
    rewrite selectById_updateLog in Hsel.
    destruct (selectById _ (logs s)) as [| x l]; [discriminate |].
    injection Hsel as <- _. split; apply Hclean.
Qed.

(** X16.  An id parameter made of white space only is read by [Number] as 0,
    which is an integer: it passes the id check, and since no row of a
    well-formed table has id 0, an admin's delete of it is answered 404 and
    not 400, by the guarded and by the unguarded route. *)
Theorem blank_id_reads_as_zero (se : option Session) (idParam : string)
    (s : Server) :
  allWhiteSpace idParam = true ->
  notAdmin se = false ->
  configured (env s) = true ->
  wf (logs s) ->
  truncate (Number idParam) = 0
  /\ LogRoute.DELETE se idParam s = (json (Message "Log not found") 404, s)
  /\ LogRouteOpen.DELETE idParam s = (json (Message "Log not found") 404, s).
Proof.
  intros Hws Hadm Hcfg (_ & _ & Hlt).
  pose proof (Number_allWhiteSpace idParam Hws) as En.
  assert (Hid : isInteger (Number idParam) = true) by now rewrite En.
  assert (Hz : truncate (Number idParam) = 0) by now rewrite En.
  assert (Habs : absent (truncate (Number idParam)) (logs s)).
  { rewrite Hz. intros r Hr. rewrite Forall_forall in Hlt.
    specialize (Hlt r Hr). lia. }
  split; [exact Hz |]. split.
  - rewrite DELETE_run, deleteLog_absent by assumption. cbn [fst snd].
    now rewrite server_eta.
  - rewrite DELETE_open_run, deleteLog_absent by assumption. cbn [fst snd].
    now rewrite server_eta.
Qed.


End MoreProperties.

(* ================================================================== *)
(** ** The pool, the sign-in callbacks and the page *)
(* ================================================================== *)

Section PoolAuthPage.
Local Open Scope string_scope.

Lemma memoized_keeps (options : Pool.PoolOptions) (g : Pool.Global)
    (pool : Pool.PoolOptions) (g' : Pool.Global) :
  Pool.memoized options g = (JS.Return pool, g') ->
  g' = Some pool /\ (g = Some pool \/ (g = None /\ pool = options)).
Proof.
  unfold Pool.memoized. destruct g as [x |]; intros H; injection H as <- <-; auto.
Qed.

(** X18.  [getPool] throws exactly when the host, the database or the user is
    unset or empty, whether or not a pool exists already, and then leaves the
    global pool as it was; the handlers' [getPool] throws in the same
    environments. *)
Theorem getPool_throws_iff_unset (e : Pool.ProcessEnv) (g : Pool.Global)
    (t : Db.Table) :
  let incomplete :=
    Pool.unset (Pool.MYSQL_HOST e) || Pool.unset (Pool.MYSQL_DATABASE e)
    || Pool.unset (Pool.MYSQL_USER e) in
  (fst (Pool.getPool e g) = JS.Throw <-> incomplete = true)
  /\ (incomplete = true -> Pool.getPool e g = (JS.Throw, g))
  /\ (fst (Http.getPool (Http.mkServer (Pool.httpEnv e) t)) = JS.Throw
      <-> incomplete = true)
  /\ Http.configured (Pool.httpEnv e) = negb incomplete.
Proof.
  cbv zeta. unfold Pool.getPool.
  destruct (Pool.unset (Pool.MYSQL_HOST e) || Pool.unset (Pool.MYSQL_DATABASE e)
            || Pool.unset (Pool.MYSQL_USER e)) eqn:E.
  - assert (C : Http.configured (Pool.httpEnv e) = false).
    { unfold Http.configured, Pool.httpEnv, Http.envSet, Pool.unset in *.
      cbn [Http.MYSQL_HOST Http.MYSQL_DATABASE Http.MYSQL_USER].
      destruct (Pool.MYSQL_HOST e) as [h |], (Pool.MYSQL_DATABASE e) as [d |],
        (Pool.MYSQL_USER e) as [u |]; cbn in *;
        repeat match goal with
               | |- context [String.eqb ?a ""] => destruct (String.eqb a "")
               end; cbn in *; try reflexivity; discriminate. }
    repeat split; auto.
    intros _.
    now rewrite (OutcomeFacts.getPool_unconfigured
                   (Http.mkServer (Pool.httpEnv e) t) C).
  - assert (C : Http.configured (Pool.httpEnv e) = true).
    { unfold Http.configured, Pool.httpEnv, Http.envSet, Pool.unset in *.
      cbn [Http.MYSQL_HOST Http.MYSQL_DATABASE Http.MYSQL_USER].
      destruct (Pool.MYSQL_HOST e) as [h |], (Pool.MYSQL_DATABASE e) as [d |],
        (Pool.MYSQL_USER e) as [u |]; cbn in *;
        repeat match goal with
               | |- context [String.eqb ?a ""] => destruct (String.eqb a "")
               end; cbn in *; try reflexivity; discriminate. }
    repeat split; auto; try discriminate.
    + unfold Pool.memoized. destruct g; discriminate.
    + rewrite (HandlerFacts.getPool_configured
                 (Http.mkServer (Pool.httpEnv e) t) C). discriminate.
Qed.

(** X19.  The pool is created once.  When a call of [getPool] returns a pool,
    every later call of any of the three forms of [getPool], under any
    environment, either throws or returns that same pool, and the global pool
    stays the same: a change of the environment after the first call has no
    effect on the options of the pool. *)
Theorem getPool_is_singleton (e : Pool.ProcessEnv) (g g' : Pool.Global)
    (pool : Pool.PoolOptions) :
  Pool.getPool e g = (JS.Return pool, g') ->
  g' = Some pool
  /\ forall (e' : Pool.ProcessEnv) (parses : string -> bool),
       (Pool.getPool e' g' = (JS.Throw, g')
        \/ Pool.getPool e' g' = (JS.Return pool, g'))
       /\ (Pool.getPoolPlain e' g' = (JS.Throw, g')
           \/ Pool.getPoolPlain e' g' = (JS.Return pool, g'))
       /\ (Pool.getPoolUri parses e' g' = (JS.Throw, g')
           \/ Pool.getPoolUri parses e' g' = (JS.Return pool, g')).
Proof.
  unfold Pool.getPool at 1. cbv zeta.
  destruct (_ || _); [discriminate |]. intros H.
  apply memoized_keeps in H as [-> _]. split; [reflexivity |].
  intros e' parses.
  unfold Pool.getPool, Pool.getPoolPlain, Pool.getPoolUri. cbv zeta.
  repeat split.
  - destruct (_ || _); auto.
  - destruct (_ || _); auto.
  - destruct (Pool.unset _); auto.
Qed.

(** X20.  TLS is requested only by [MYSQL_SSL] being exactly [true] or [1]:
    otherwise [getPool] does what the earlier [getPool] without TLS does.  When
    it is requested and no pool exists yet, the pool is created with
    certificate verification on, unless [MYSQL_SSL_REJECT_UNAUTHORIZED] is
    exactly [false]. *)
Theorem getPool_tls (e : Pool.ProcessEnv) (g : Pool.Global) :
  (Pool.equals (Pool.MYSQL_SSL e) "true" = false ->
   Pool.equals (Pool.MYSQL_SSL e) "1" = false ->
   Pool.getPool e g = Pool.getPoolPlain e g)
  /\ (Pool.equals (Pool.MYSQL_SSL e) "true" = true
      \/ Pool.equals (Pool.MYSQL_SSL e) "1" = true ->
      forall pool g',
        Pool.getPool e None = (JS.Return pool, g') ->
        Pool.ssl pool
        = Some (Pool.mkSslOptions
                  (negb (Pool.equals (Pool.MYSQL_SSL_REJECT_UNAUTHORIZED e) "false")))).
Proof.
  split.
  - intros H1 H2. unfold Pool.getPool, Pool.getPoolPlain. cbv zeta.
    now rewrite H1, H2.
  - intros Hssl pool g'. unfold Pool.getPool. cbv zeta.
    destruct (_ || _); [discriminate |].
    assert (E : Pool.equals (Pool.MYSQL_SSL e) "true"
                || Pool.equals (Pool.MYSQL_SSL e) "1" = true).
    { destruct Hssl as [-> | ->]; [reflexivity | apply orb_true_r]. }
    rewrite E. cbn [Pool.memoized]. intros H. injection H as <- _. reflexivity.
Qed.

(** X21.  At sign-in the [jwt] callback keeps a non-empty role the user object
    carries, whatever the provider; a user without role gets [user] only when
    the account's provider is [google], and [admin] in every other case, also
    when there is no account.  Later calls, without user, return the token as
    it is, and the session built from a token is an admin session exactly when
    the token's role is [admin]. *)
Theorem token_role_decides_admin (token : Auth.Token) (u : Auth.User)
    (account : option Auth.Account) (se : Http.Session) (su : Http.SessionUser) :
  (forall x, Auth.role u = Some x -> x <> "" ->
             Auth.tokenRole (Auth.jwt token (Some u) account) = Some x)
  /\ (Auth.role u = None \/ Auth.role u = Some "" ->
      Auth.tokenRole (Auth.jwt token (Some u) account)
      = Some (if Auth.isGoogle account then "user" else "admin"))
  /\ Auth.jwt token None account = token
  /\ (Http.user se = Some su ->
      Http.notAdmin (Some (Auth.session se token))
      = negb (Auth.strictEq (Auth.tokenRole token) "admin")).
Proof.
  repeat split.
  - intros x Hx Hne. unfold Auth.jwt, Auth.roleOr. rewrite Hx. cbn.
    destruct (String.eqb_spec x ""); [contradiction | reflexivity].
  - intros [H | H]; unfold Auth.jwt, Auth.roleOr; rewrite H; reflexivity.
  - intros Hsu. unfold Auth.session. rewrite Hsu. cbn.
    now destruct (Auth.tokenRole token).
Qed.

Lemma map_id_merge (data : Page.Log) (prev : list Page.Log) :
  map Page.id (map (fun item => if (Page.id item =? Page.id data)%Z
                                then data else item) prev)
  = map Page.id prev.
Proof.
  rewrite map_map. apply map_ext. intros item.
  destruct (Z.eqb_spec (Page.id item) (Page.id data)); congruence.
Qed.

(** X22.  On the page an update never changes which ids are listed nor their
    order, and a create puts the new entry first; removing the id of an entry
    just created, when no older entry has that id, gives the list back. *)
Theorem page_merge_and_remove (editing : Z) (data : Page.Log)
    (prev : list Page.Log) :
  map Page.id (Page.mergeSubmitted (Some editing) data prev) = map Page.id prev
  /\ Page.mergeSubmitted None data prev = data :: prev
  /\ ((forall item, In item prev -> Page.id item <> Page.id data) ->
      Page.removeDeleted (Page.id data) (Page.mergeSubmitted None data prev) = prev).
Proof.
  split; [apply map_id_merge |]. split; [reflexivity |].
  intros Hfresh. unfold Page.mergeSubmitted, Page.removeDeleted.
  cbn [Page.isEditing filter]. rewrite Z.eqb_refl. cbn [negb].
  induction prev as [| x l IH]; [reflexivity |].
  cbn [filter]. destruct (Z.eqb_spec (Page.id x) (Page.id data)) as [E | _].
  - exfalso. exact (Hfresh x (or_introl eq_refl) E).
  - cbn [negb]. f_equal. apply IH. intros item Hi. apply Hfresh. now right.
Qed.



End PoolAuthPage.

(* ================================================================== *)
(** ** More worked requests on the reference run time *)
(* ================================================================== *)

Section MoreExamples.
Import JS Db Http Outcome Reference.
Local Open Scope string_scope.

Lemma rex_valid :
  validPayload (payload "Rex" "Walked" "2024-01-03T08:00:00Z") "Rex" "Walked"
    1704268800000.
Proof.
  eexists. split; [reflexivity |].
  repeat (split; [first [reflexivity | discriminate] |]). reflexivity.
Qed.

Lemma bella_valid :
  validPayload (payload " Bella" "Fed " "2024-01-02T08:00:00Z") " Bella" "Fed "
    1704182400000.
Proof.
  eexists. split; [reflexivity |].
  repeat (split; [first [reflexivity | discriminate] |]). reflexivity.
Qed.

Lemma non_admin_gets_403_witness :
  LogRoute.DELETE (Some viewerSession) "1" server0 = (forbidden, server0).
Proof.
  refine (proj2 (proj2 (non_admin_gets_403 (Some viewerSession)
                          (payload "Rex" "Walked" "2024-01-03T08:00:00Z") "1" now0
                          server0 _))).
  reflexivity.
Defined.

Lemma missing_field_rejected_witness :
  LogsRoute.POST (Some adminSession)
    (mkRequest (Some (JObject [("petName", JString "Rex"); ("task", JString "")])))
    now0 server0
  = (json (Message "petName, task, and time are required") 400, server0).
Proof.
  refine (proj1 (missing_field_rejected (Some adminSession)
                   (mkRequest (Some (JObject [("petName", JString "Rex");
                                              ("task", JString "")])))
                   (JObject [("petName", JString "Rex"); ("task", JString "")])
                   "1" now0 server0 _ eq_refl _ _)).
  - reflexivity.
  - discriminate.
  - right. left. reflexivity.
Defined.

Lemma unreadable_body_is_500_witness :
  LogRoute.PUT (Some adminSession) (mkRequest None) "not-a-number" now0 server0
  = (json (Message "Failed to update log") 500, server0).
Proof.
  refine (proj1 (proj2 (unreadable_body_is_500 (Some adminSession)
                          (mkRequest None) "not-a-number" now0 server0 _ _))).
  - reflexivity.
  - left. reflexivity.
Defined.

Lemma non_string_field_is_500_witness :
  LogsRoute.POST (Some adminSession)
    (mkRequest (Some (JObject [("petName", JNumber (Number "5"));
                               ("task", JString "Fed");
                               ("time", JString "2024-01-03T08:00:00Z")])))
    now0 server0
  = (json (Message "Failed to create log") 500, server0).
Proof.
  refine (proj1 (non_string_field_is_500 (Some adminSession)
                   (mkRequest (Some (JObject [("petName", JNumber (Number "5"));
                                              ("task", JString "Fed");
                                              ("time", JString "2024-01-03T08:00:00Z")])))
                   (JObject [("petName", JNumber (Number "5"));
                             ("task", JString "Fed");
                             ("time", JString "2024-01-03T08:00:00Z")])
                   1704268800000 "1" now0 server0 _ eq_refl _ _ _ _ _)).
  1-5: reflexivity.
  left. intros x. vm_compute. discriminate.
Defined.

Lemma unconfigured_pool_is_500_witness :
  LogsRoute.GET (Some viewerSession)
    (mkServer (mkEnv (Some "localhost") None (Some "root")) (logs server0))
  = (json (Message "Failed to fetch logs") 500,
     mkServer (mkEnv (Some "localhost") None (Some "root")) (logs server0)).
Proof.
  refine (proj1 (unconfigured_pool_is_500 None viewerSession (mkRequest None)
                   "" "" 0 "1" now0
                   (mkServer (mkEnv (Some "localhost") None (Some "root"))
                      (logs server0)) _)).
  reflexivity.
Defined.

Lemma refused_requests_leave_store_witness :
  snd (LogRoute.DELETE (Some adminSession) "9999" server0) = server0.
Proof.
  refine (proj1 (proj2 (proj2 (proj2 (refused_requests_leave_store
            (Some adminSession) (mkRequest None) "9999" now0 server0)))) _).
  vm_compute. do 3 right. left. reflexivity.
Defined.

Lemma delete_removes_row_from_list_witness :
  exists before after : list LogRow,
    fst (LogsRoute.GET (Some viewerSession) server0) = json200 (Logs before)
    /\ fst (LogsRoute.GET (Some viewerSession)
              (snd (LogRoute.DELETE (Some adminSession) "2" server0)))
       = json200 (Logs after)
    /\ Permutation after
         (filter (fun r => negb (Db.id r =? truncate (Number "2"))%Z) before)
    /\ descending after.
Proof.
  refine (proj2 (proj2 (proj2 (proj2 (delete_removes_row_from_list
            (Some adminSession) "2" server0 _ _ _ _)))) viewerSession).
  1-3: reflexivity.
  intros H. apply (H luna); [right; left; reflexivity | reflexivity].
Defined.

Lemma update_rewrites_one_row_witness :
  fst (LogRoute.PUT (Some adminSession) (payload " Bella" "Fed " "2024-01-02T08:00:00Z")
         "2" now0 server0)
  = json200 (Log (mkLogRow 2 "Bella" "Fed" 1704182400000 1704190000000 (Some now0))).
Proof.
  refine (proj1 (update_rewrites_one_row (Some adminSession) _ "2" now0 server0
                   " Bella" "Fed " 1704182400000 luna _ _ server0_wf _
                   bella_valid _ _)).
  1-3: reflexivity.
  - right. left. reflexivity.
  - reflexivity.
Defined.

Lemma createdAt_never_changes_witness :
  createdAt (mkLogRow 2 "Bella" "Fed" 1704182400000 1704190000000 (Some now0))
  = createdAt luna.
Proof.
  refine (proj1 (proj2 (createdAt_never_changes (Some adminSession)
                          (payload " Bella" "Fed " "2024-01-02T08:00:00Z") "2" now0
                          server0 server0_wf))
            luna
            (mkLogRow 2 "Bella" "Fed" 1704182400000 1704190000000 (Some now0))
            _ _ _).
  - right. left. reflexivity.
  - vm_compute. right. left. reflexivity.
  - reflexivity.
Defined.

Lemma newest_entry_listed_first_witness :
  exists tail : list LogRow,
    fst (LogsRoute.GET (Some viewerSession)
           (snd (LogsRoute.POST (Some adminSession)
                   (payload "Rex" "Walked" "2024-01-03T08:00:00Z") now0 server0)))
    = json200 (Logs (mkLogRow 3 "Rex" "Walked" 1704268800000 now0 (Some now0)
                     :: tail))
    /\ Permutation tail [milo; luna]
    /\ descending (mkLogRow 3 "Rex" "Walked" 1704268800000 now0 (Some now0)
                   :: tail).
Proof.
  refine (proj2 (newest_entry_listed_first (Some adminSession) _ now0 server0
                   "Rex" "Walked" 1704268800000 viewerSession _ _ server0_wf
                   rex_valid _)).
  1-2: reflexivity.
  repeat constructor.
Defined.

Lemma url_id_round_trip_witness :
  isInteger (Number (Page.idParam 42)) = true
  /\ truncate (Number (Page.idParam 42)) = 42.
Proof. apply (url_id_round_trip 42). lia. Defined.

Lemma create_then_delete_restores_rows_witness :
  exists r : LogRow,
    fst (LogsRoute.POST (Some adminSession)
           (payload "Rex" "Walked" "2024-01-03T08:00:00Z") now0 server0)
    = json (Log r) 201
    /\ fst (LogRoute.DELETE (Some adminSession) (Page.idParam (Db.id r))
              (snd (LogsRoute.POST (Some adminSession)
                      (payload "Rex" "Walked" "2024-01-03T08:00:00Z") now0 server0)))
       = json200 Success
    /\ rows (logs (snd (LogRoute.DELETE (Some adminSession) (Page.idParam (Db.id r))
                          (snd (LogsRoute.POST (Some adminSession)
                                  (payload "Rex" "Walked" "2024-01-03T08:00:00Z")
                                  now0 server0)))))
       = [milo; luna].
Proof.
  refine (create_then_delete_restores_rows (Some adminSession) _ now0 server0
            "Rex" "Walked" 1704268800000 _ _ server0_wf rex_valid _).
  1-2: reflexivity.
  simpl. lia.
Defined.

Lemma stored_strings_are_trimmed_witness :
  startsWithWhiteSpace "Bella" = false /\ endsWithWhiteSpace "Bella" = false
  /\ trim "Bella" = "Bella".
Proof.
  refine (proj1 (proj1 (proj2 (stored_strings_are_trimmed (Some adminSession)
            (payload " Bella" "Fed " "2024-01-02T08:00:00Z") "2" now0 server0
            (mkLogRow 2 "Bella" "Fed" 1704182400000 1704190000000 (Some now0)))) _)).
  reflexivity.
Defined.

Lemma blank_id_reads_as_zero_witness :
  LogRoute.DELETE (Some adminSession) "  " server0 = (notFound, server0).
Proof.
  refine (proj1 (proj2 (blank_id_reads_as_zero (Some adminSession) "  " server0
                          _ _ _ server0_wf))).
  all: reflexivity.
Defined.


Lemma handlers_preserve_wf_witness :
  wf (logs (snd (LogsRoute.POST (Some adminSession)
                   (payload "Rex" "Walked" "2024-01-03T08:00:00Z") now0 server0))).
Proof.
  exact (proj1 (proj2 (handlers_preserve_wf (Some adminSession)
                         (payload "Rex" "Walked" "2024-01-03T08:00:00Z") "1" now0
                         server0 server0_wf))).
Defined.

Lemma getPool_throws_iff_unset_witness :
  Pool.getPool
    (Pool.mkProcessEnv (Some "db.example") (Some "") (Some "root") None None None
       None None)
    None
  = (Throw, None).
Proof.
  refine (proj1 (proj2 (getPool_throws_iff_unset _ None (logs server0))) _).
  reflexivity.
Defined.

Lemma getPool_is_singleton_witness :
  Pool.getPool
    (Pool.mkProcessEnv (Some "other.example") (Some "cats") (Some "guest") None
       (Some "3307") (Some "true") None None)
    (Some (Pool.mkPoolOptions None (Some "db.example") (Some "pets") (Some "root")
             None (Some (Finite false 3306 0)) true 10 None))
  = (Throw,
     Some (Pool.mkPoolOptions None (Some "db.example") (Some "pets") (Some "root")
             None (Some (Finite false 3306 0)) true 10 None))
  \/ Pool.getPool
       (Pool.mkProcessEnv (Some "other.example") (Some "cats") (Some "guest") None
          (Some "3307") (Some "true") None None)
       (Some (Pool.mkPoolOptions None (Some "db.example") (Some "pets")
                (Some "root") None (Some (Finite false 3306 0)) true 10 None))
     = (Return (Pool.mkPoolOptions None (Some "db.example") (Some "pets")
                  (Some "root") None (Some (Finite false 3306 0)) true 10 None),
        Some (Pool.mkPoolOptions None (Some "db.example") (Some "pets")
                (Some "root") None (Some (Finite false 3306 0)) true 10 None)).
Proof.
  exact (proj1 (proj2 (getPool_is_singleton
           (Pool.mkProcessEnv (Some "db.example") (Some "pets") (Some "root") None
              None None None None)
           None _ _ eq_refl)
           (Pool.mkProcessEnv (Some "other.example") (Some "cats") (Some "guest")
              None (Some "3307") (Some "true") None None)
           (fun _ => true))).
Defined.

Lemma getPool_tls_witness :
  Pool.ssl
    (Pool.mkPoolOptions None (Some "db.example") (Some "pets") (Some "root") None
       (Some (Finite false 3306 0)) true 10 (Some (Pool.mkSslOptions true)))
  = Some (Pool.mkSslOptions true).
Proof.
  refine (proj2 (getPool_tls
                   (Pool.mkProcessEnv (Some "db.example") (Some "pets")
                      (Some "root") None None (Some "1") (Some "no") None)
                   None) _
            (Pool.mkPoolOptions None (Some "db.example") (Some "pets")
               (Some "root") None (Some (Finite false 3306 0)) true 10
               (Some (Pool.mkSslOptions true)))
            (Some (Pool.mkPoolOptions None (Some "db.example") (Some "pets")
                     (Some "root") None (Some (Finite false 3306 0)) true 10
                     (Some (Pool.mkSslOptions true))))
            _).
  - right. reflexivity.
  - reflexivity.
Defined.

Lemma token_role_decides_admin_witness :
  Auth.tokenRole
    (Auth.jwt (Auth.mkToken None None)
       (Some (Auth.mkUser (Some "u1") None None None))
       (Some (Auth.mkAccount "github")))
  = Some "admin".
Proof.
  refine (proj1 (proj2 (token_role_decides_admin (Auth.mkToken None None)
                          (Auth.mkUser (Some "u1") None None None)
                          (Some (Auth.mkAccount "github")) (mkSession None)
                          (mkSessionUser None None))) _).
  left. reflexivity.
Defined.

Lemma page_merge_and_remove_witness :
  Page.removeDeleted 9
    (Page.mergeSubmitted None (entry 9 "Rex") [entry 1 "Milo"; entry 2 "Luna"])
  = [entry 1 "Milo"; entry 2 "Luna"].
Proof.
  refine (proj2 (proj2 (page_merge_and_remove 0 (entry 9 "Rex")
                          [entry 1 "Milo"; entry 2 "Luna"])) _).
  intros item [<- | [<- | []]]; simpl; lia.
Defined.



End MoreExamples.
